(** * Kibali IA Store: the client-side orchestration layer

    A shallow embedding of the two shipped versions of the React component
    [App] and the properties of its network gateway, inventory refresh,
    diagnostics poller and model actions.

    - [AppV3]   embeds [src/App.tsx] (the "backend V3" client);
    - [AppDemo] embeds [src/unnamed/part_001] (the client with the demo
      fallback and the request timer).

    The handlers are [async] functions over React state.  They are embedded
    in a small monad over the component state and a chronological trace of
    the observable effects ([fetch], [confirm], [alert], [console]); the
    backend and the user are an explicit environment. *)

From Stdlib Require Import String Ascii List Bool Arith Lia DecimalString.
Import ListNotations.
Open Scope string_scope.

Set Warnings "-register-all".

(** ** The fragment of the JavaScript runtime the component relies on *)

Module Js.

(** Errors raised by the engine itself (not by a [throw] in the source):
    their text is engine specific. *)
Inductive Fault :=
| ReadOfNullish (prop : string)   (* x.prop with x null or undefined *)
| NotAFunction (prop : string)    (* x.prop(...) with x.prop not callable *)
| FetchAborted.                   (* fetch rejected through its AbortSignal *)

(** What is taken from the engine: the numbers (IEEE doubles in
    JavaScript) with the literals and the three operations the handlers
    apply to them, the numeric reading of a string, and the text of engine
    errors. *)
Record Engine := {
  num : Type;
  num_of_nat : nat -> num;         (* a literal such as 12 *)
  num_truthy : num -> bool;        (* neither 0 nor NaN *)
  num_positive : num -> bool;      (* x > 0 *)
  num_text : num -> string;        (* Number::toString *)
  text_positive : string -> bool;  (* StringToNumber(s) > 0 *)
  fault_text : Fault -> string
}.

Inductive ErrorName := Error | TypeError | SyntaxError | AbortError.

(** A thrown value: every [throw] and rejection in the two files carries
    an error object, of which the handlers read [message] only. *)
Record JsError := mkError { name : ErrorName; message : string }.

Section Values.
Variable E : Engine.

(** Values of type [any] as [res.json()] delivers them, plus
    [undefined] for absent properties. *)
Inductive jsval :=
| JUndefined
| JNull
| JBool (b : bool)
| JNum (x : num E)
| JStr (s : string)
| JArr (items : list jsval)
| JObj (fields : list (string * jsval)).

(** ToBoolean. *)
Definition truthy (v : jsval) : bool :=
  match v with
  | JUndefined | JNull => false
  | JBool b => b
  | JNum x => num_truthy E x
  | JStr s => negb (s =? "")
  | JArr _ | JObj _ => true
  end.

(** Own data property of an object literal (keys of a parsed object are
    distinct; the first binding is the property). *)
Fixpoint own (k : string) (fields : list (string * jsval)) : jsval :=
  match fields with
  | [] => JUndefined
  | (k', v) :: rest => if k =? k' then v else own k rest
  end.

(** [v.k] for a key [k] that names no inherited member ([is_standard],
    [custom_files], [count], [detail]): [None] is the TypeError of a
    read on null or undefined. *)
Definition prop (k : string) (v : jsval) : option jsval :=
  match v with
  | JUndefined | JNull => None
  | JObj fields => Some (own k fields)
  | _ => Some JUndefined
  end.

(** ToString; [Array.prototype.join] renders null and undefined
    elements as the empty string. *)
Fixpoint to_string (v : jsval) : string :=
  match v with
  | JUndefined => "undefined"
  | JNull => "null"
  | JBool true => "true"
  | JBool false => "false"
  | JNum x => num_text E x
  | JStr s => s
  | JArr items =>
      String.concat ","
        (map (fun x => match x with
                       | JUndefined | JNull => ""
                       | _ => to_string x
                       end) items)
  | JObj _ => "[object Object]"
  end.

Definition element_text (x : jsval) : string :=
  match x with
  | JUndefined | JNull => ""
  | _ => to_string x
  end.

(** [v.join(sep)]: only an array has a callable [join]; [None] is the
    TypeError otherwise. *)
Definition join (sep : string) (v : jsval) : option string :=
  match v with
  | JArr items => Some (String.concat sep (map element_text items))
  | _ => None
  end.

(** [v > 0] (ToNumber on the left operand). *)
Definition positive (v : jsval) : bool :=
  match v with
  | JUndefined => false                       (* NaN *)
  | JNull => false                            (* 0 *)
  | JBool b => b                              (* 0 or 1 *)
  | JNum x => num_positive E x
  | JStr s => text_positive E s
  | JArr _ => text_positive E (to_string v)   (* ToPrimitive: toString *)
  | JObj _ => false                           (* "[object Object]": NaN *)
  end.

End Values.

Arguments JUndefined {E}.
Arguments JNull {E}.
Arguments JBool {E} b.
Arguments JNum {E} x.
Arguments JStr {E} s.
Arguments JArr {E} items.
Arguments JObj {E} fields.
Arguments truthy {E} v.
Arguments own {E} k fields.
Arguments prop {E} k v.
Arguments to_string {E} v.
Arguments element_text {E} x.
Arguments join {E} sep v.
Arguments positive {E} v.

(** Decimal rendering of a natural number (array lengths, HTTP status). *)
Definition dec (n : nat) : string := NilEmpty.string_of_uint (Nat.to_uint n).

(** [s.length]: JavaScript counts UTF-16 code units; the strings here are
    UTF-8 byte sequences.  A continuation byte adds nothing, the lead byte
    of a four-byte sequence adds a surrogate pair. *)
Fixpoint utf16_length (s : string) : nat :=
  match s with
  | EmptyString => 0
  | String c rest =>
      let b := nat_of_ascii c in
      ((if b <? 128 then 1
        else if b <? 192 then 0
        else if b <? 240 then 1
        else 2) + utf16_length rest)%nat
  end.

(** [v.length > 0] and the text of [v.length] in a template literal, for
    a truthy or falsy [v] that is not null or undefined. *)
Definition length_positive {E} (v : jsval E) : bool :=
  match v with
  | JArr items => (0 <? List.length items)%nat
  | JStr s => (0 <? utf16_length s)%nat
  | JObj fields => positive (own "length" fields)
  | _ => false
  end.

Definition length_text {E} (v : jsval E) : string :=
  match v with
  | JArr items => dec (List.length items)
  | JStr s => dec (utf16_length s)
  | JObj fields => to_string (own "length" fields)
  | _ => "undefined"
  end.

(** [encodeURIComponent] on a well-formed string: the unreserved
    characters stay, every other byte of the UTF-8 encoding becomes %XX. *)
Definition hex_digit (n : nat) : ascii :=
  ascii_of_nat (if n <? 10 then 48 + n else 55 + n)%nat.

Definition unreserved (c : ascii) : bool :=
  let b := nat_of_ascii c in
  (((65 <=? b) && (b <=? 90)) || ((97 <=? b) && (b <=? 122))
   || ((48 <=? b) && (b <=? 57)))%nat
  || existsb (Nat.eqb b) [45; 95; 46; 33; 126; 42; 39; 40; 41]%nat.

Fixpoint encodeURIComponent (s : string) : string :=
  match s with
  | EmptyString => EmptyString
  | String c rest =>
      if unreserved c then String c (encodeURIComponent rest)
      else
        let b := nat_of_ascii c in
        String "%" (String (hex_digit (b / 16)%nat)
          (String (hex_digit (b mod 16)%nat) (encodeURIComponent rest)))
  end.

End Js.

(** ** The wire: requests, responses and what the backend may do *)

Module Net.

Inductive Method := GET | POST | DELETE.

Section Wire.
Variable E : Js.Engine.

(** The second argument of [apiFetch] ([RequestInit]); absent options are
    a bodiless GET. *)
Record Options := { opt_method : Method; opt_body : option (Js.jsval E) }.

Definition no_options : Options := {| opt_method := GET; opt_body := None |}.

(** What [fetch] is called with.  [payload] is the value handed to
    [JSON.stringify]; [signal] tells whether an AbortSignal is attached. *)
Record Request := {
  url : string;
  method : Method;
  headers : list (string * string);
  payload : option (Js.jsval E);
  signal : bool
}.

(** [res.json()]: the decoded body, or the text of the SyntaxError. *)
Inductive Body :=
| Json (v : Js.jsval E)
| NotJson (message : string).

Record Response := { status : nat; statusText : string; body : Body }.

(** [res.ok]. *)
Definition ok (r : Response) : bool :=
  ((200 <=? status r) && (status r <=? 299))%nat.

(** What happens to one request: the transport fails ([fetch] rejects with
    a TypeError), a response arrives, both after so many milliseconds, or
    nothing ever comes back. *)
Inductive Behaviour :=
| Refused (after : nat) (message : string)
| Answered (after : nat) (res : Response)
| Silent.

End Wire.

Arguments opt_method {E} o.
Arguments opt_body {E} o.
Arguments no_options {E}.
Arguments url {E} r.
Arguments method {E} r.
Arguments headers {E} r.
Arguments payload {E} r.
Arguments signal {E} r.
Arguments Json {E} v.
Arguments NotJson {E} message.
Arguments status {E} r.
Arguments statusText {E} r.
Arguments body {E} r.
Arguments ok {E} r.
Arguments Refused {E} after message.
Arguments Answered {E} after res.
Arguments Silent {E}.

End Net.

(** ** Asynchronous code as state passing

    An [async] function is a state transformer over a [World]: the
    component state, the trace of effects so far, and the [fetchModels]
    calls that were started without [await] and are still running.  The
    result of a run is a value, a thrown error, or [Pending] when an awaited
    promise never settles. *)

Module Async.

Section Monad.
Variable E : Js.Engine.
Variable S : Type.

Inductive Event :=
| EFetch (req : Net.Request E)
| EConsoleError (err : Js.JsError)
| EConsoleWarn (text : string) (err : Js.JsError)
| EConfirm (msg : string) (answer : bool)
| EAlert (msg : string).

(** The backend answers the [n]th request of a run; the user answers a
    [confirm] dialog. *)
Record Env := {
  backend : nat -> Net.Request E -> Net.Behaviour E;
  user_accepts : string -> bool
}.

Record World := {
  ui : S;
  trace : list Event;
  background : list (Net.Behaviour E)
}.

Inductive Res (A : Type) :=
| Val (a : A)
| Throw (err : Js.JsError)
| Pending.

Definition Act (A : Type) := World -> Res A * World.

Definition ret {A} (a : A) : Act A := fun w => (Val A a, w).

Definition bind {A B} (m : Act A) (k : A -> Act B) : Act B :=
  fun w =>
    match m w with
    | (Val _ a, w') => k a w'
    | (Throw _ err, w') => (Throw B err, w')
    | (Pending _, w') => (Pending B, w')
    end.

Definition throw {A} (err : Js.JsError) : Act A := fun w => (Throw A err, w).

(** An already computed result. *)
Definition lift {A} (r : Res A) : Act A := fun w => (r, w).

(** [try { body } catch (err) { handler }]: a pending body never reaches
    the handler. *)
Definition try_catch {A} (body : Act A) (handler : Js.JsError -> Act A) : Act A :=
  fun w =>
    match body w with
    | (Throw _ err, w') => handler err w'
    | r => r
    end.

(** [... finally { fin }]: runs [fin] when the protected block returns or
    throws, and keeps the block's result unless [fin] itself fails. *)
Definition finally {A} (block : Act A) (fin : Act unit) : Act A :=
  fun w =>
    match block w with
    | (Pending _, w') => (Pending A, w')
    | (r, w') =>
        match fin w' with
        | (Val _ _, w'') => (r, w'')
        | (Throw _ err, w'') => (Throw A err, w'')
        | (Pending _, w'') => (Pending A, w'')
        end
    end.

Definition modify (f : S -> S) : Act unit :=
  fun w => (Val unit tt, {| ui := f (ui w); trace := trace w; background := background w |}).

Definition read : Act S := fun w => (Val S (ui w), w).

Definition emit (e : Event) : Act unit :=
  fun w => (Val unit tt, {| ui := ui w; trace := trace w ++ [e]; background := background w |}).

(** A call started without [await]: its pending request joins the
    background. *)
Definition detach (nb : Net.Behaviour E) : Act unit :=
  fun w => (Val unit tt, {| ui := ui w; trace := trace w; background := background w ++ [nb] |}).

Definition requests (tr : list Event) : list (Net.Request E) :=
  flat_map (fun e => match e with EFetch req => [req] | _ => [] end) tr.

Definition confirms (tr : list Event) : list (string * bool) :=
  flat_map (fun e => match e with EConfirm m a => [(m, a)] | _ => [] end) tr.

Variable env : Env.

(** [fetch(url, init)] up to the point where the caller suspends. *)
Definition fetch (req : Net.Request E) : Act (Net.Behaviour E) :=
  fun w =>
    (Val _ (backend env (List.length (requests (trace w))) req),
     {| ui := ui w; trace := trace w ++ [EFetch req]; background := background w |}).

(** [confirm(msg)] and [alert(msg)]. *)
Definition confirm (msg : string) : Act bool :=
  bind (emit (EConfirm msg (user_accepts env msg)))
       (fun _ => ret (user_accepts env msg)).

Definition alert (msg : string) : Act unit := emit (EAlert msg).

Definition start (s : S) : World := {| ui := s; trace := []; background := [] |}.

End Monad.

Arguments Val {A} a.
Arguments Throw {A} err.
Arguments Pending {A}.
Arguments EFetch {E} req.
Arguments EConsoleError {E} err.
Arguments EConsoleWarn {E} text err.
Arguments EConfirm {E} msg answer.
Arguments EAlert {E} msg.
Arguments backend {E} e n req.
Arguments user_accepts {E} e msg.
Arguments ui {E S} w.
Arguments trace {E S} w.
Arguments background {E S} w.
Arguments ret {E S A} a w.
Arguments bind {E S A B} m k w.
Arguments throw {E S A} err w.
Arguments lift {E S A} r w.
Arguments try_catch {E S A} body handler w.
Arguments finally {E S A} block fin w.
Arguments modify {E S} f w.
Arguments read {E S} w.
Arguments emit {E S} e w.
Arguments detach {E S} nb w.
Arguments requests {E} tr.
Arguments confirms {E} tr.
Arguments fetch {E S} env req w.
Arguments confirm {E S} env msg w.
Arguments alert {E S} msg w.
Arguments start {E S} s.

End Async.

Declare Scope act_scope.
Delimit Scope act_scope with act.
Notation "x <- m ;; k" := (Async.bind m (fun x => k))
  (at level 61, m at next level, right associativity) : act_scope.
Notation "m ;; k" := (Async.bind m (fun _ => k))
  (at level 61, right associativity) : act_scope.
Notation "'try_' body 'catch_' handler 'finally_' fin" :=
  (Async.finally (Async.try_catch body handler) fin)
  (at level 10, body at level 9, handler at level 9, fin at level 9) : act_scope.

(** ** The polling effect as a state machine

    [useEffect] sets the poller up ([Start]: one [fetchModels], one
    [fetchDiagnostics], then an interval timer) and tears it down ([Stop]:
    [clearInterval]).  While it is [Polling] the timer fires ([Tick]); a
    call in flight ends when the scheduler says so ([Settle]).  A cleared
    timer never fires: a [Tick] outside [Polling] is no step at all. *)

Module Poll.

Import Async.

Inductive Phase := Idle | Polling | Stopped.

Inductive PollEvent :=
| Start
| Tick
| Settle (k : nat)   (* the [k]th call in flight ends *)
| Stop.

Section Poller.
Variable E : Js.Engine.
Variable S : Type.
Variable Flight : Type.

(** [fetchModels()] and [fetchDiagnostics()] called without [await]: what
    runs at once, leaving a call in flight; and the rest of such a call. *)
Variable call_models : Act E S Flight.
Variable call_diagnostics : Act E S Flight.
Variable resume : Flight -> Act E S unit.

Record Poller := {
  world : World E S;
  phase : Phase;
  flights : list Flight
}.

Definition idle (s : S) : Poller :=
  {| world := start s; phase := Idle; flights := [] |}.

Definition with_phase (ph : Phase) (p : Poller) : Poller :=
  {| world := world p; phase := ph; flights := flights p |}.

Definition call (c : Act E S Flight) (p : Poller) : Poller :=
  match c (world p) with
  | (Val f, w) => {| world := w; phase := phase p; flights := flights p ++ [f] |}
  | (_, w) => {| world := w; phase := phase p; flights := flights p |}
  end.

Fixpoint without {A} (k : nat) (l : list A) : list A :=
  match l, k with
  | [], _ => []
  | _ :: rest, O => rest
  | x :: rest, Datatypes.S k' => x :: without k' rest
  end.

(** The [k]th call in flight ends: what is left of it runs on the current
    state, whatever the phase.  (The rest of a call that stays pending
    changes nothing.) *)
Definition arrive (k : nat) (p : Poller) : Poller :=
  match nth_error (flights p) k with
  | Some f => {| world := snd (resume f (world p)); phase := phase p;
                 flights := without k (flights p) |}
  | None => p
  end.

Definition step (p : Poller) (ev : PollEvent) : Poller :=
  match ev, phase p with
  | Start, Idle => with_phase Polling (call call_diagnostics (call call_models p))
  | Tick, Polling => call call_diagnostics p
  | Stop, Polling => with_phase Stopped p
  | Settle k, _ => arrive k p
  | _, _ => p
  end.

Definition exec (evs : list PollEvent) (p : Poller) : Poller :=
  fold_left step evs p.

(** One tick whose call ends before the next tick, and [n] of them. *)
Definition round (p : Poller) : Poller :=
  arrive (List.length (flights p)) (step p Tick).

Fixpoint rounds (n : nat) (p : Poller) : Poller :=
  match n with
  | O => p
  | Datatypes.S n' => rounds n' (round p)
  end.

End Poller.

Arguments world {E S Flight} p.
Arguments phase {E S Flight} p.
Arguments flights {E S Flight} p.
Arguments idle {E S Flight} s.
Arguments with_phase {E S Flight} ph p.
Arguments call {E S Flight} c p.
Arguments arrive {E S Flight} resume k p.
Arguments step {E S Flight} call_models call_diagnostics resume p ev.
Arguments exec {E S Flight} call_models call_diagnostics resume evs p.
Arguments round {E S Flight} call_models call_diagnostics resume p.
Arguments rounds {E S Flight} call_models call_diagnostics resume n p.

End Poll.

(** Characters that a string literal cannot hold conveniently. *)
Definition nl : string := String (ascii_of_nat 10) EmptyString.
Definition dq : string := String (ascii_of_nat 34) EmptyString.

(** ** [src/App.tsx] *)

Module AppV3.

Import Js Net Async.

Definition API_BASE : string := "http://localhost:8000".

Inductive Tab := inventory | discover | system.

Section Component.
Variable E : Engine.
Variable env : Env E.

(** The [useState] cells of [App]; the cells fed from [apiFetch] hold
    whatever the backend sent. *)
Record State := {
  models : jsval E;
  diagnostics : jsval E;
  searchResults : jsval E;
  isLoading : bool;
  loadingMessage : string;
  activeTab : Tab;
  searchQuery : string;
  error : option string;
  snippetData : jsval E;
  verifyData : jsval E;
  showCleanupConfirm : bool
}.

Definition initial : State := {|
  models := JArr []; diagnostics := JNull; searchResults := JArr [];
  isLoading := false; loadingMessage := ""; activeTab := inventory;
  searchQuery := ""; error := None; snippetData := JNull;
  verifyData := JNull; showCleanupConfirm := false |}.

Local Abbreviation Act := (Async.Act E State).
Local Open Scope act_scope.

Definition setModels (v : jsval E) : Act unit :=
  modify (fun s => {| models := v; diagnostics := diagnostics s;
    searchResults := searchResults s; isLoading := isLoading s;
    loadingMessage := loadingMessage s; activeTab := activeTab s;
    searchQuery := searchQuery s; error := error s;
    snippetData := snippetData s; verifyData := verifyData s;
    showCleanupConfirm := showCleanupConfirm s |}).

Definition setDiagnostics (v : jsval E) : Act unit :=
  modify (fun s => {| models := models s; diagnostics := v;
    searchResults := searchResults s; isLoading := isLoading s;
    loadingMessage := loadingMessage s; activeTab := activeTab s;
    searchQuery := searchQuery s; error := error s;
    snippetData := snippetData s; verifyData := verifyData s;
    showCleanupConfirm := showCleanupConfirm s |}).

Definition setSearchResults (v : jsval E) : Act unit :=
  modify (fun s => {| models := models s; diagnostics := diagnostics s;
    searchResults := v; isLoading := isLoading s;
    loadingMessage := loadingMessage s; activeTab := activeTab s;
    searchQuery := searchQuery s; error := error s;
    snippetData := snippetData s; verifyData := verifyData s;
    showCleanupConfirm := showCleanupConfirm s |}).

Definition setIsLoading (b : bool) : Act unit :=
  modify (fun s => {| models := models s; diagnostics := diagnostics s;
    searchResults := searchResults s; isLoading := b;
    loadingMessage := loadingMessage s; activeTab := activeTab s;
    searchQuery := searchQuery s; error := error s;
    snippetData := snippetData s; verifyData := verifyData s;
    showCleanupConfirm := showCleanupConfirm s |}).

Definition setLoadingMessage (m : string) : Act unit :=
  modify (fun s => {| models := models s; diagnostics := diagnostics s;
    searchResults := searchResults s; isLoading := isLoading s;
    loadingMessage := m; activeTab := activeTab s;
    searchQuery := searchQuery s; error := error s;
    snippetData := snippetData s; verifyData := verifyData s;
    showCleanupConfirm := showCleanupConfirm s |}).

Definition setActiveTab (t : Tab) : Act unit :=
  modify (fun s => {| models := models s; diagnostics := diagnostics s;
    searchResults := searchResults s; isLoading := isLoading s;
    loadingMessage := loadingMessage s; activeTab := t;
    searchQuery := searchQuery s; error := error s;
    snippetData := snippetData s; verifyData := verifyData s;
    showCleanupConfirm := showCleanupConfirm s |}).

Definition setSearchQuery (q : string) : Act unit :=
  modify (fun s => {| models := models s; diagnostics := diagnostics s;
    searchResults := searchResults s; isLoading := isLoading s;
    loadingMessage := loadingMessage s; activeTab := activeTab s;
    searchQuery := q; error := error s;
    snippetData := snippetData s; verifyData := verifyData s;
    showCleanupConfirm := showCleanupConfirm s |}).

Definition setError (e : option string) : Act unit :=
  modify (fun s => {| models := models s; diagnostics := diagnostics s;
    searchResults := searchResults s; isLoading := isLoading s;
    loadingMessage := loadingMessage s; activeTab := activeTab s;
    searchQuery := searchQuery s; error := e;
    snippetData := snippetData s; verifyData := verifyData s;
    showCleanupConfirm := showCleanupConfirm s |}).

Definition setSnippetData (v : jsval E) : Act unit :=
  modify (fun s => {| models := models s; diagnostics := diagnostics s;
    searchResults := searchResults s; isLoading := isLoading s;
    loadingMessage := loadingMessage s; activeTab := activeTab s;
    searchQuery := searchQuery s; error := error s;
    snippetData := v; verifyData := verifyData s;
    showCleanupConfirm := showCleanupConfirm s |}).

Definition setVerifyData (v : jsval E) : Act unit :=
  modify (fun s => {| models := models s; diagnostics := diagnostics s;
    searchResults := searchResults s; isLoading := isLoading s;
    loadingMessage := loadingMessage s; activeTab := activeTab s;
    searchQuery := searchQuery s; error := error s;
    snippetData := snippetData s; verifyData := v;
    showCleanupConfirm := showCleanupConfirm s |}).

Definition setShowCleanupConfirm (b : bool) : Act unit :=
  modify (fun s => {| models := models s; diagnostics := diagnostics s;
    searchResults := searchResults s; isLoading := isLoading s;
    loadingMessage := loadingMessage s; activeTab := activeTab s;
    searchQuery := searchQuery s; error := error s;
    snippetData := snippetData s; verifyData := verifyData s;
    showCleanupConfirm := b |}).

(** *** API fetch helper (lines 93-108) *)

Definition request (endpoint : string) (options : Options E) : Request E := {|
  url := API_BASE ++ endpoint;
  method := opt_method options;
  headers := [("Content-Type", "application/json")];
  payload := opt_body options;
  signal := false |}.

(** What the awaited part of [apiFetch] makes of the backend's behaviour:
    no timer is installed, so a response is taken whenever it arrives and a
    silent backend leaves the call pending. *)
Definition settle (nb : Behaviour E) : Res (jsval E) :=
  match nb with
  | Silent => Pending
  | Refused _ msg => Throw (mkError TypeError msg)
  | Answered _ res =>
      if negb (ok res) then
        let errData :=
          match body res with
          | Json v => v
          | NotJson _ => JObj [("detail", JStr (statusText res))]
          end in
        match prop "detail" errData with
        | None => Throw (mkError TypeError (fault_text E (ReadOfNullish "detail")))
        | Some detail =>
            Throw (mkError Error
              (if truthy detail then to_string detail
               else "Erreur API: " ++ dec (status res)))
        end
      else
        match body res with
        | Json v => Val v
        | NotJson msg => Throw (mkError SyntaxError msg)
        end
  end.

(** The [catch] of [apiFetch]: log and rethrow. *)
Definition received (nb : Behaviour E) : Act (jsval E) :=
  match settle nb with
  | Val v => ret v
  | Throw err => emit (EConsoleError err) ;; throw err
  | Pending => lift Pending
  end.

Definition apiFetch (endpoint : string) (options : Options E) : Act (jsval E) :=
  nb <- fetch env (request endpoint options) ;; received nb.

Definition post (body : jsval E) : Options E :=
  {| opt_method := POST; opt_body := Some body |}.

Definition repo_body (repoId : string) : jsval E := JObj [("repo_id", JStr repoId)].

(** *** Data loading (lines 111-136) *)

(** [fetchModels] up to its [await], and from there on. *)
Definition fetchModels_begin : Act (Behaviour E) :=
  setIsLoading true ;;
  setLoadingMessage "Scan des modèles locaux..." ;;
  fetch env (request "/models" no_options).

Definition fetchModels_resume (nb : Behaviour E) : Act unit :=
  try_ (data <- received nb ;; setModels data)
  catch_ (fun _ =>
    setError (Some "Backend indisponible. Vérifiez que 'main.py' est lancé."))
  finally_ (setIsLoading false).

Definition fetchModels : Act unit :=
  nb <- fetchModels_begin ;; fetchModels_resume nb.

(** [fetchModels()] without [await]. *)
Definition fetchModels_detached : Act unit :=
  nb <- fetchModels_begin ;; detach nb.

Definition fetchDiagnostics_begin : Act (Behaviour E) :=
  fetch env (request "/diagnostics" no_options).

Definition fetchDiagnostics_resume (nb : Behaviour E) : Act unit :=
  try_catch (data <- received nb ;; setDiagnostics data)
            (fun _ => ret tt (* Silent fail for polling *)).

Definition fetchDiagnostics : Act unit :=
  nb <- fetchDiagnostics_begin ;; fetchDiagnostics_resume nb.

(** *** The effect (lines 131-136)

    [fetchModels] and [fetchDiagnostics] never change ([useCallback] with
    no dependency), so React sets the effect up when the component mounts
    and tears it down when it unmounts, or when it replays the effects of a
    mounted component, as its strict mode does on every mount. *)

(** The period of [setInterval], in milliseconds. *)
Definition POLL_MS : nat := 5000.

Inductive Flight :=
| ModelsFlight (nb : Behaviour E)
| DiagnosticsFlight (nb : Behaviour E).

Definition call_fetchModels : Act Flight :=
  nb <- fetchModels_begin ;; ret (ModelsFlight nb).

Definition call_fetchDiagnostics : Act Flight :=
  nb <- fetchDiagnostics_begin ;; ret (DiagnosticsFlight nb).

Definition resume (f : Flight) : Act unit :=
  match f with
  | ModelsFlight nb => fetchModels_resume nb
  | DiagnosticsFlight nb => fetchDiagnostics_resume nb
  end.

Definition poll (evs : list Poll.PollEvent) (p : Poll.Poller E State Flight)
  : Poll.Poller E State Flight :=
  Poll.exec call_fetchModels call_fetchDiagnostics resume evs p.

Definition ticks (n : nat) (p : Poll.Poller E State Flight)
  : Poll.Poller E State Flight :=
  Poll.rounds call_fetchModels call_fetchDiagnostics resume n p.

(** *** Handlers (lines 140-257) *)

Definition handleSearch : Act unit :=
  s <- read ;;
  if searchQuery s =? "" then ret tt
  else
    setIsLoading true ;;
    setLoadingMessage ("Exploration Hugging Face pour " ++ dq ++ searchQuery s ++ dq ++ "...") ;;
    try_ (data <- apiFetch "/models/search"
                    (post (JObj [("query", JStr (searchQuery s)); ("limit", JNum (num_of_nat E 12))])) ;;
          setSearchResults data)
    catch_ (fun err => setError (Some (message err)))
    finally_ (setIsLoading false).

(** The three texts of [handleDownload] (lines 167-171), as functions of
    what their template literals interpolate. *)
Definition plainConfirm (repoId : string) : string :=
  "Télécharger " ++ repoId ++ " ?".

Definition customWarning (repoId listing : string) : string :=
  "⚠️ ATTENTION: " ++ repoId ++ " est un modèle CUSTOM." ++ nl
  ++ "Il contient des fichiers Python spécifiques : " ++ listing ++ "." ++ nl ++ nl
  ++ "Son utilisation demandera du code manuel." ++ nl
  ++ "Continuer ?".

Definition customNote (repoId count : string) : string :=
  "ℹ️ Note : " ++ repoId ++ " est Standard mais contient du code custom ("
  ++ count ++ " fichiers)." ++ nl
  ++ "Il faudra utiliser trust_remote_code=True." ++ nl
  ++ "Continuer ?".

(** The choice of the text (lines 167-172); [Throw] is the TypeError of a
    read on a missing value. *)
Definition confirmMsg (repoId : string) (check : jsval E) : Res string :=
  match prop "is_standard" check, prop "custom_files" check with
  | Some is_standard, Some custom_files =>
      if negb (truthy is_standard) then
        match custom_files with
        | JUndefined | JNull =>
            Throw (mkError TypeError (fault_text E (ReadOfNullish "join")))
        | _ =>
            match join ", " custom_files with
            | None => Throw (mkError TypeError (fault_text E (NotAFunction "join")))
            | Some listing => Val (customWarning repoId listing)
            end
        end
      else if truthy custom_files && length_positive custom_files then
        Val (customNote repoId (length_text custom_files))
      else Val (plainConfirm repoId)
  | _, _ => (* [check] is null *)
      Throw (mkError TypeError (fault_text E (ReadOfNullish "is_standard")))
  end.

Definition handleDownload (repoId : string) : Act unit :=
  setIsLoading true ;;
  setLoadingMessage ("Analyse de " ++ repoId ++ "...") ;;
  try_ (check <- apiFetch "/models/check-remote" (post (repo_body repoId)) ;;
        msg <- lift (confirmMsg repoId check) ;;
        accepted <- confirm env msg ;;
        if negb accepted then setIsLoading false (* return *)
        else
          setLoadingMessage "Démarrage du téléchargement optimisé (Aria2)..." ;;
          _ <- apiFetch "/models/download" (post (repo_body repoId)) ;;
          alert "Téléchargement lancé en arrière-plan." ;;
          setActiveTab inventory ;;
          fetchModels_detached)
  catch_ (fun err => setError (Some (message err)))
  finally_ (setIsLoading false).

Definition handleDelete (repoId : string) : Act unit :=
  accepted <- confirm env ("Supprimer " ++ repoId ++ " ? Cette action est irréversible.") ;;
  if negb accepted then ret tt
  else
    setIsLoading true ;;
    try_ (_ <- apiFetch "/models"
                 {| opt_method := DELETE; opt_body := Some (repo_body repoId) |} ;;
          fetchModels)
    catch_ (fun err => setError (Some (message err)))
    finally_ (setIsLoading false).

Definition handleSnippet (repoId : string) : Act unit :=
  setIsLoading true ;;
  try_ (data <- apiFetch "/models/snippet" (post (repo_body repoId)) ;;
        setSnippetData data)
  catch_ (fun err => setError (Some (message err)))
  finally_ (setIsLoading false).

Definition handleVerify (repoId : string) : Act unit :=
  setIsLoading true ;;
  setLoadingMessage "Vérification d'intégrité..." ;;
  try_ (data <- apiFetch "/models/verify" (post (repo_body repoId)) ;;
        setVerifyData data)
  catch_ (fun err => setError (Some (message err)))
  finally_ (setIsLoading false).

(** [handleCleanup] up to its [await], and from there on. *)
Definition handleCleanup_begin : Act (Behaviour E) :=
  setIsLoading true ;;
  fetch env (request "/system/cleanup?type=incomplete"
               {| opt_method := POST; opt_body := None |}).

Definition handleCleanup_resume (nb : Behaviour E) : Act unit :=
  try_ (res <- received nb ;;
        count <- lift match prop "count" res with
                      | Some c => Val c
                      | None => Throw (mkError TypeError
                                         (fault_text E (ReadOfNullish "count")))
                      end ;;
        alert ("Nettoyage terminé : " ++ to_string count ++ " dossiers supprimés.") ;;
        fetchModels_detached)
  catch_ (fun err => setError (Some (message err)))
  finally_ (setIsLoading false ;; setShowCleanupConfirm false).

Definition handleCleanup : Act unit :=
  nb <- handleCleanup_begin ;; handleCleanup_resume nb.

(** The two buttons of the cleanup dialog (lines 524-533): "Non" closes it,
    "Oui" starts [handleCleanup] without awaiting it and closes it. *)
Definition cleanupConfirm_Non : Act unit := setShowCleanupConfirm false.

Definition cleanupConfirm_Oui : Act unit :=
  nb <- handleCleanup_begin ;;
  setShowCleanupConfirm false ;;
  handleCleanup_resume nb.

(** *** Running a handler *)

Inductive Action :=
| Search
| Download (repoId : string)
| Delete (repoId : string)
| Snippet (repoId : string)
| Verify (repoId : string)
| Cleanup.

Definition perform (a : Action) : Act unit :=
  match a with
  | Search => handleSearch
  | Download repoId => handleDownload repoId
  | Delete repoId => handleDelete repoId
  | Snippet repoId => handleSnippet repoId
  | Verify repoId => handleVerify repoId
  | Cleanup => handleCleanup
  end.

(** The detached [fetchModels] calls run to their end after the handler
    has returned. *)
Definition drain (w : World E State) : World E State :=
  fold_left (fun w' nb => snd (fetchModels_resume nb w')) (background w)
    {| ui := ui w; trace := trace w; background := [] |}.

(** A run from state [s]: how the handler's promise ends, the world at
    that moment, and the world once the detached work is over. *)
Record Run := {
  outcome : Res unit;
  at_return : World E State;
  settled : World E State
}.

Definition run (h : Act unit) (s : State) : Run :=
  let (r, w) := h (start s) in
  {| outcome := r; at_return := w; settled := drain w |}.

Definition returned (r : Run) : bool :=
  match outcome r with Pending => false | _ => true end.

End Component.

Arguments models {E} s.
Arguments diagnostics {E} s.
Arguments searchResults {E} s.
Arguments isLoading {E} s.
Arguments loadingMessage {E} s.
Arguments activeTab {E} s.
Arguments searchQuery {E} s.
Arguments error {E} s.
Arguments snippetData {E} s.
Arguments verifyData {E} s.
Arguments showCleanupConfirm {E} s.
Arguments initial {E}.
Arguments request {E} endpoint options.
Arguments settle {E} nb.
Arguments post {E} body.
Arguments repo_body {E} repoId.
Arguments confirmMsg {E} repoId check.
Arguments outcome {E} r.
Arguments at_return {E} r.
Arguments settled {E} r.
Arguments returned {E} r.
Arguments run {E} h s.
Arguments drain {E} w.

End AppV3.

(** ** [src/unnamed/part_001] *)

Module AppDemo.

Import Js Net Async.

Definition API_BASE : string := "http://localhost:8000".

(** The delay of the abort timer in [apiFetch], in milliseconds. *)
Definition TIMEOUT_MS : nat := 3000.

Inductive Tab := inventory | discover | system.

Section Component.
Variable E : Engine.
Variable env : Env E.

Record State := {
  models : jsval E;
  diagnostics : jsval E;
  searchQuery : string;
  searchResults : jsval E;
  isLoading : bool;
  activeTab : Tab;
  testResults : jsval E;
  error : option string
}.

Definition initial : State := {|
  models := JArr []; diagnostics := JNull; searchQuery := "";
  searchResults := JArr []; isLoading := false; activeTab := inventory;
  testResults := JNull; error := None |}.

Local Abbreviation Act := (Async.Act E State).
Local Open Scope act_scope.

Definition setModels (v : jsval E) : Act unit :=
  modify (fun s => {| models := v; diagnostics := diagnostics s;
    searchQuery := searchQuery s; searchResults := searchResults s;
    isLoading := isLoading s; activeTab := activeTab s;
    testResults := testResults s; error := error s |}).

Definition setDiagnostics (v : jsval E) : Act unit :=
  modify (fun s => {| models := models s; diagnostics := v;
    searchQuery := searchQuery s; searchResults := searchResults s;
    isLoading := isLoading s; activeTab := activeTab s;
    testResults := testResults s; error := error s |}).

Definition setSearchResults (v : jsval E) : Act unit :=
  modify (fun s => {| models := models s; diagnostics := diagnostics s;
    searchQuery := searchQuery s; searchResults := v;
    isLoading := isLoading s; activeTab := activeTab s;
    testResults := testResults s; error := error s |}).

Definition setIsLoading (b : bool) : Act unit :=
  modify (fun s => {| models := models s; diagnostics := diagnostics s;
    searchQuery := searchQuery s; searchResults := searchResults s;
    isLoading := b; activeTab := activeTab s;
    testResults := testResults s; error := error s |}).

Definition setError (e : option string) : Act unit :=
  modify (fun s => {| models := models s; diagnostics := diagnostics s;
    searchQuery := searchQuery s; searchResults := searchResults s;
    isLoading := isLoading s; activeTab := activeTab s;
    testResults := testResults s; error := e |}).

(** Fallback data if the API is not reachable (lines 33-44). *)
Definition getMockModels : jsval E :=
  JArr [
    JObj [("Nom", JStr "Kibali-Llama-3-Mock"); ("Chemin", JStr "/mock/path/llama");
          ("Taille", JStr "8.0GB"); ("Statut", JStr "Complet"); ("Type", JStr "LLM");
          ("PyTorch", JStr "Oui"); ("TF", JStr "Non"); ("CUDA", JStr "Oui");
          ("StandardHF", JStr "Oui"); ("RepoID", JStr "meta-llama/Llama-3-8B")];
    JObj [("Nom", JStr "Kibali-StableDiffusion-XL"); ("Chemin", JStr "/mock/path/sdxl");
          ("Taille", JStr "6.5GB"); ("Statut", JStr "Complet"); ("Type", JStr "Diffusion");
          ("PyTorch", JStr "Oui"); ("TF", JStr "Non"); ("CUDA", JStr "Oui");
          ("StandardHF", JStr "Oui");
          ("RepoID", JStr "stabilityai/stable-diffusion-xl-base-1.0")]
  ].

Definition getMockDiagnostics : jsval E :=
  JObj [
    ("CPU", JObj [("Cœurs", JNum (num_of_nat E 8)); ("Threads", JNum (num_of_nat E 16));
                  ("Fréquence", JStr "3.5GHz")]);
    ("RAM", JObj [("Totale", JStr "16GB"); ("Utilisée", JStr "45%");
                  ("Libre", JStr "8.8GB")]);
    ("GPU/CUDA", JObj [("Disponible", JStr "Oui"); ("Nom GPU", JStr "NVIDIA RTX 3080");
                       ("VRAM", JStr "10GB")]);
    ("Conseil RAM", JStr "✅ Système stable.");
    ("Conseil GPU", JStr "✅ Accélération activée.")
  ].

(** *** [apiFetch] (lines 46-62) *)

Definition request (endpoint : string) (options : Options E) : Request E := {|
  url := API_BASE ++ endpoint;
  method := opt_method options;
  headers := [];
  payload := opt_body options;
  signal := true |}.

(** The awaited part of [apiFetch]: the timer aborts the request when
    nothing has come back after [TIMEOUT_MS]; it is cleared as soon as the
    response is there. *)
Definition settle (nb : Behaviour E) : Res (jsval E) :=
  let aborted := Throw (mkError AbortError (fault_text E FetchAborted)) in
  match nb with
  | Silent => aborted
  | Refused after msg =>
      if (TIMEOUT_MS <=? after)%nat then aborted
      else Throw (mkError TypeError msg)
  | Answered after res =>
      if (TIMEOUT_MS <=? after)%nat then aborted
      else if negb (ok res) then
        Throw (mkError Error ("API Error: " ++ dec (status res)))
      else
        match body res with
        | Json v => Val v
        | NotJson msg => Throw (mkError SyntaxError msg)
        end
  end.

Definition received (endpoint : string) (nb : Behaviour E) : Act (jsval E) :=
  match settle nb with
  | Val v => ret v
  | Throw err =>
      emit (EConsoleWarn ("API Unavailable (" ++ endpoint ++ "), using mock data.") err) ;;
      throw err
  | Pending => lift Pending
  end.

Definition apiFetch (endpoint : string) (options : Options E) : Act (jsval E) :=
  nb <- fetch env (request endpoint options) ;; received endpoint nb.

(** *** Data loading (lines 64-92) *)

Definition fetchModels_begin : Act (Behaviour E) :=
  setIsLoading true ;;
  setError None ;;
  fetch env (request "/models" no_options).

Definition fetchModels_resume (nb : Behaviour E) : Act unit :=
  try_ (data <- received "/models" nb ;; setModels data)
  catch_ (fun _ =>
    setModels getMockModels ;;
    setError (Some "Serveur Backend non détecté (Mode Démo activé)"))
  finally_ (setIsLoading false).

Definition fetchModels : Act unit :=
  nb <- fetchModels_begin ;; fetchModels_resume nb.

(** [fetchDiagnostics] closes over the [diagnostics] of the render that
    created it.  React creates it anew whenever [diagnostics] changes
    ([useCallback]) and sets the effect up again with it, so a call that
    starts sees the current value; it is [seen] until the call ends. *)
Definition fetchDiagnostics_begin : Act (jsval E * Behaviour E) :=
  s <- read ;;
  nb <- fetch env (request "/diagnostics" no_options) ;;
  ret (diagnostics s, nb).

Definition fetchDiagnostics_resume (seen : jsval E) (nb : Behaviour E) : Act unit :=
  try_catch (data <- received "/diagnostics" nb ;; setDiagnostics data)
            (fun _ => if negb (truthy seen) then setDiagnostics getMockDiagnostics
                      else ret tt).

Definition fetchDiagnostics : Act unit :=
  c <- fetchDiagnostics_begin ;; fetchDiagnostics_resume (fst c) (snd c).

(** *** The effect (lines 87-92)

    The effect depends on [fetchDiagnostics], which [useCallback] renews
    with every change of [diagnostics]: React then tears the effect down
    and sets it up again, with the component and its state in place.  For
    the poller below that is a [Stop], followed by the [Start] of a fresh
    poller on the same state. *)

(** The period of [setInterval], in milliseconds. *)
Definition POLL_MS : nat := 15 * 1000.

Inductive Flight :=
| ModelsFlight (nb : Behaviour E)
| DiagnosticsFlight (seen : jsval E) (nb : Behaviour E).

Definition call_fetchModels : Act Flight :=
  nb <- fetchModels_begin ;; ret (ModelsFlight nb).

Definition call_fetchDiagnostics : Act Flight :=
  c <- fetchDiagnostics_begin ;; ret (DiagnosticsFlight (fst c) (snd c)).

Definition resume (f : Flight) : Act unit :=
  match f with
  | ModelsFlight nb => fetchModels_resume nb
  | DiagnosticsFlight seen nb => fetchDiagnostics_resume seen nb
  end.

Definition poll (evs : list Poll.PollEvent) (p : Poll.Poller E State Flight)
  : Poll.Poller E State Flight :=
  Poll.exec call_fetchModels call_fetchDiagnostics resume evs p.

Definition ticks (n : nat) (p : Poll.Poller E State Flight)
  : Poll.Poller E State Flight :=
  Poll.rounds call_fetchModels call_fetchDiagnostics resume n p.

(** *** [handleSearch] (lines 94-107) *)

Definition handleSearch : Act unit :=
  s <- read ;;
  if searchQuery s =? "" then ret tt
  else
    setIsLoading true ;;
    try_ (data <- apiFetch ("/search?query=" ++ encodeURIComponent (searchQuery s))
                    no_options ;;
          setSearchResults data)
    catch_ (fun _ =>
      setSearchResults (JArr [
        JObj [("id", JStr ("demo/" ++ searchQuery s ++ "-model"));
              ("author", JStr "demo-user"); ("tags", JArr [JStr "demo"]);
              ("downloads", JNum (num_of_nat E 100)); ("is_standard", JBool true)]]))
    finally_ (setIsLoading false).


(** *** [handleTestAll] (lines 109-124) *)

Definition setTestResults (v : jsval E) : Act unit :=
  modify (fun s => {| models := models s; diagnostics := diagnostics s;
    searchQuery := searchQuery s; searchResults := searchResults s;
    isLoading := isLoading s; activeTab := activeTab s;
    testResults := v; error := error s |}).

(** The callback of [models.map] in the fallback: one report line for the
    model [m]; [None] is the TypeError of [m.Nom] on null. *)
Definition demoCheck (m : jsval E) : option (jsval E) :=
  match prop "Nom" m with
  | None => None
  | Some nom =>
      Some (JObj [("Nom", nom); ("Type", JStr "Demo Check");
                  ("Fonctionnel", JStr "Oui");
                  ("Détails", JStr "Validation locale simulée réussie.")])
  end.

(** [items.map(f)] and [items.filter(f)] for callbacks that may throw: the
    elements are visited in order and the first error ends the loop. *)
Fixpoint map_throwing (f : jsval E -> option (jsval E)) (fault : Fault)
    (items : list (jsval E)) : Res (list (jsval E)) :=
  match items with
  | [] => Val []
  | m :: rest =>
      match f m with
      | None => Throw (mkError TypeError (fault_text E fault))
      | Some v =>
          match map_throwing f fault rest with
          | Val vs => Val (v :: vs)
          | other => other
          end
      end
  end.

Fixpoint filter_throwing (f : jsval E -> option bool) (fault : Fault)
    (items : list (jsval E)) : Res (list (jsval E)) :=
  match items with
  | [] => Val []
  | m :: rest =>
      match f m with
      | None => Throw (mkError TypeError (fault_text E fault))
      | Some keep =>
          match filter_throwing f fault rest with
          | Val vs => Val (if keep then m :: vs else vs)
          | other => other
          end
      end
  end.

(** [models.map(m => ({ Nom: m.Nom, ... }))]: only an array has [map]. *)
Definition demoReport (models : jsval E) : Res (jsval E) :=
  match models with
  | JArr items =>
      match map_throwing demoCheck (ReadOfNullish "Nom") items with
      | Val lines => Val (JArr lines)
      | Throw err => Throw err
      | Pending => Pending
      end
  | JUndefined | JNull => Throw (mkError TypeError (fault_text E (ReadOfNullish "map")))
  | _ => Throw (mkError TypeError (fault_text E (NotAFunction "map")))
  end.

(** The handler reads [models] from the render that created it. *)
Definition handleTestAll : Act unit :=
  s <- read ;;
  setIsLoading true ;;
  try_ (data <- apiFetch "/test-models" {| opt_method := POST; opt_body := None |} ;;
        setTestResults data)
  catch_ (fun _ => report <- lift (demoReport (models s)) ;; setTestResults report)
  finally_ (setIsLoading false).

(** *** [handleDeleteModel] (lines 126-137) *)

(** [m.RepoID !== repoId]; [None] is the TypeError of [m.RepoID] on null. *)
Definition otherRepo (repoId : string) (m : jsval E) : option bool :=
  match prop "RepoID" m with
  | None => None
  | Some (JStr r) => Some (negb (r =? repoId))
  | Some _ => Some true
  end.

(** [prev.filter(m => m.RepoID !== repoId)]. *)
Definition withoutRepo (repoId : string) (prev : jsval E) : Res (jsval E) :=
  match prev with
  | JArr items =>
      match filter_throwing (otherRepo repoId) (ReadOfNullish "RepoID") items with
      | Val kept => Val (JArr kept)
      | Throw err => Throw err
      | Pending => Pending
      end
  | JUndefined | JNull => Throw (mkError TypeError (fault_text E (ReadOfNullish "filter")))
  | _ => Throw (mkError TypeError (fault_text E (NotAFunction "filter")))
  end.

(** [setModels(prev => update(prev))]: React applies the update to the
    models of the moment.  When the update throws, it is React that raises
    the error, while rendering; here the action that asked for the update
    ends with that error. *)
Definition setModels_by (update : jsval E -> Res (jsval E)) : Act unit :=
  s <- read ;;
  next <- lift (update (models s)) ;;
  setModels next.

Definition handleDeleteModel (repoId : string) : Act unit :=
  accepted <- confirm env ("Voulez-vous vraiment supprimer " ++ repoId ++ " ?") ;;
  if negb accepted then ret tt
  else
    setIsLoading true ;;
    try_ (_ <- apiFetch ("/models/" ++ encodeURIComponent repoId)
                 {| opt_method := DELETE; opt_body := None |} ;;
          fetchModels)
    catch_ (fun _ => setModels_by (withoutRepo repoId))
    finally_ (setIsLoading false).

End Component.

Arguments models {E} s.
Arguments diagnostics {E} s.
Arguments searchQuery {E} s.
Arguments searchResults {E} s.
Arguments isLoading {E} s.
Arguments activeTab {E} s.
Arguments testResults {E} s.
Arguments error {E} s.
Arguments initial {E}.
Arguments request {E} endpoint options.
Arguments settle {E} nb.
Arguments getMockModels {E}.
Arguments getMockDiagnostics {E}.
Arguments demoCheck {E} m.
Arguments demoReport {E} models.
Arguments otherRepo {E} repoId m.
Arguments withoutRepo {E} repoId prev.

End AppDemo.

(** ** Data and environments for the statements *)

(** [needle] occurs in [hay] as a contiguous piece. *)
Fixpoint occurs (needle hay : string) : bool :=
  String.prefix needle hay
  || match hay with
     | EmptyString => false
     | String _ rest => occurs needle rest
     end.

(** The PreflightCheck of the data model as [POST /models/check-remote]
    sends it. *)
Record PreflightCheck := {
  repoId : string;
  isStandard : bool;
  customFiles : list string
}.

Definition preflight_json {E} (c : PreflightCheck) : Js.jsval E :=
  Js.JObj [("repo_id", Js.JStr (repoId c));
           ("is_standard", Js.JBool (isStandard c));
           ("custom_files", Js.JArr (map Js.JStr (customFiles c)))].

(** A concrete engine and backend for the closed examples: numbers are
    naturals, strings read as numbers when they are decimal numerals. *)
Module Sample.

Definition engine : Js.Engine := {|
  Js.num := nat;
  Js.num_of_nat := fun n => n;
  Js.num_truthy := fun n => negb (Nat.eqb n 0);
  Js.num_positive := fun n => Nat.ltb 0 n;
  Js.num_text := Js.dec;
  Js.text_positive := fun s =>
    match NilEmpty.uint_of_string s with
    | Some u => Nat.ltb 0 (Nat.of_uint u)
    | None => false
    end;
  Js.fault_text := fun f =>
    match f with
    | Js.ReadOfNullish p => "Cannot read properties of undefined (reading '" ++ p ++ "')"
    | Js.NotAFunction p => p ++ " is not a function"
    | Js.FetchAborted => "The user aborted a request."
    end |}.

Definition ok_response (v : Js.jsval engine) : Net.Response engine :=
  {| Net.status := 200; Net.statusText := "OK"; Net.body := Net.Json v |}.

(** A backend that answers every request after [latency] ms with [v]. *)
Definition answering (latency : nat) (v : Js.jsval engine) (accept : bool)
  : Async.Env engine :=
  {| Async.backend := fun _ _ => Net.Answered latency (ok_response v);
     Async.user_accepts := fun _ => accept |}.

(** A backend that cannot be reached. *)
Definition unreachable (accept : bool) : Async.Env engine :=
  {| Async.backend := fun _ _ => Net.Refused 5 "Failed to fetch";
     Async.user_accepts := fun _ => accept |}.

Definition custom_model : PreflightCheck :=
  {| repoId := "org/custom-model"; isStandard := false;
     customFiles := ["modeling.py"; "config.py"] |}.

Definition standard_with_code : PreflightCheck :=
  {| repoId := "org/std-model"; isStandard := true;
     customFiles := ["modeling.py"] |}.

(** A preflight answer without [custom_files]. *)
Definition bare_custom : Js.jsval engine :=
  Js.JObj [("repo_id", Js.JStr "org/bare"); ("is_standard", Js.JBool false)].

Definition snapshot : Js.jsval engine :=
  Js.JObj [("CPU", Js.JObj [("Threads", Js.JNum (E:=engine) 16)])].

(** A backend whose answer to the [n]th request of a run carries [n]. *)
Definition numbered_snapshot (n : nat) : Js.jsval engine :=
  Js.JObj [("RAM", Js.JObj [("request", Js.JNum (E:=engine) n)])].

Definition counting : Async.Env engine :=
  {| Async.backend := fun n _ => Net.Answered 40 (ok_response (numbered_snapshot n));
     Async.user_accepts := fun _ => true |}.

End Sample.

(** The requests the handlers issue, by name. *)
Definition models_request {E} : Net.Request E :=
  AppV3.request "/models" Net.no_options.

Definition diagnostics_request {E} : Net.Request E :=
  AppV3.request "/diagnostics" Net.no_options.

Definition search_request {E} (q : string) : Net.Request E :=
  AppV3.request "/models/search"
    (AppV3.post (Js.JObj [("query", Js.JStr q); ("limit", Js.JNum (Js.num_of_nat E 12))])).

Definition check_request {E} (repo : string) : Net.Request E :=
  AppV3.request "/models/check-remote" (AppV3.post (AppV3.repo_body repo)).

Definition download_request {E} (repo : string) : Net.Request E :=
  AppV3.request "/models/download" (AppV3.post (AppV3.repo_body repo)).


Definition demo_models_request {E} : Net.Request E :=
  AppDemo.request "/models" Net.no_options.

Definition demo_diagnostics_request {E} : Net.Request E :=
  AppDemo.request "/diagnostics" Net.no_options.

Definition demo_search_request {E} (q : string) : Net.Request E :=
  AppDemo.request ("/search?query=" ++ Js.encodeURIComponent q) Net.no_options.

(** The hit [handleSearch] of part_001 shows when the search failed. *)
Definition demo_hit {E} (q : string) : Js.jsval E :=
  Js.JArr [
    Js.JObj [("id", Js.JStr ("demo/" ++ q ++ "-model"));
             ("author", Js.JStr "demo-user"); ("tags", Js.JArr [Js.JStr "demo"]);
             ("downloads", Js.JNum (Js.num_of_nat E 100));
             ("is_standard", Js.JBool true)]].

Definition is_download_start {E} (q : Net.Request E) : bool :=
  (Net.url q =? AppV3.API_BASE ++ "/models/download")
  && match Net.method q with Net.POST => true | _ => false end.


(** Nothing has come back when the timer of part_001 fires. *)
Definition late {E} (nb : Net.Behaviour E) : bool :=
  match nb with
  | Net.Silent => true
  | Net.Refused after _ | Net.Answered after _ => (AppDemo.TIMEOUT_MS <=? after)%nat
  end.

(** More requests by name. *)
Definition delete_request {E} (repo : string) : Net.Request E :=
  AppV3.request "/models"
    {| Net.opt_method := Net.DELETE; Net.opt_body := Some (AppV3.repo_body repo) |}.

Definition demo_delete_request {E} (repo : string) : Net.Request E :=
  AppDemo.request ("/models/" ++ Js.encodeURIComponent repo)
    {| Net.opt_method := Net.DELETE; Net.opt_body := None |}.

Definition demo_test_request {E} : Net.Request E :=
  AppDemo.request "/test-models" {| Net.opt_method := Net.POST; Net.opt_body := None |}.

Definition is_delete {E} (q : Net.Request E) : bool :=
  match Net.method q with Net.DELETE => true | _ => false end.

(** The texts shown by [alert], in order. *)
Definition alerts {E} (tr : list (Async.Event E)) : list string :=
  flat_map (fun e => match e with Async.EAlert m => [m] | _ => [] end) tr.

(** [ModelInfo] of part_001 (its [./types], lines 1-12 of part_000) and
    the object the backend sends for it. *)
Record ModelInfo := {
  Nom : string;
  Chemin : string;
  Taille : string;
  Statut : string;
  Type_ : string;
  PyTorch : string;
  TF : string;
  CUDA : string;
  StandardHF : string;
  RepoID : string
}.

Definition model_json {E} (m : ModelInfo) : Js.jsval E :=
  Js.JObj [("Nom", Js.JStr (Nom m)); ("Chemin", Js.JStr (Chemin m));
           ("Taille", Js.JStr (Taille m)); ("Statut", Js.JStr (Statut m));
           ("Type", Js.JStr (Type_ m)); ("PyTorch", Js.JStr (PyTorch m));
           ("TF", Js.JStr (TF m)); ("CUDA", Js.JStr (CUDA m));
           ("StandardHF", Js.JStr (StandardHF m)); ("RepoID", Js.JStr (RepoID m))].

(** The report line of [handleTestAll]'s fallback for a model name. *)
Definition demo_line {E} (nom : string) : Js.jsval E :=
  Js.JObj [("Nom", Js.JStr nom); ("Type", Js.JStr "Demo Check");
           ("Fonctionnel", Js.JStr "Oui");
           ("Détails", Js.JStr "Validation locale simulée réussie.")].

Module Fixtures.

Definition llama : ModelInfo := {|
  Nom := "Kibali-Llama-3-Mock"; Chemin := "/mock/path/llama"; Taille := "8.0GB";
  Statut := "Complet"; Type_ := "LLM"; PyTorch := "Oui"; TF := "Non"; CUDA := "Oui";
  StandardHF := "Oui"; RepoID := "meta-llama/Llama-3-8B" |}.

Definition sdxl : ModelInfo := {|
  Nom := "Kibali-StableDiffusion-XL"; Chemin := "/mock/path/sdxl"; Taille := "6.5GB";
  Statut := "Complet"; Type_ := "Diffusion"; PyTorch := "Oui"; TF := "Non"; CUDA := "Oui";
  StandardHF := "Oui"; RepoID := "stabilityai/stable-diffusion-xl-base-1.0" |}.

(** A backend that rejects every request with [status] and the body [v]. *)
Definition rejecting (status : nat) (v : Js.jsval Sample.engine) (accept : bool)
  : Async.Env Sample.engine :=
  {| Async.backend := fun _ _ =>
       Net.Answered 15 {| Net.status := status; Net.statusText := "Not Found";
                          Net.body := Net.Json v |};
     Async.user_accepts := fun _ => accept |}.

Definition with_models (l : list ModelInfo) : AppDemo.State Sample.engine := {|
  AppDemo.models := Js.JArr (map model_json l);
  AppDemo.diagnostics := Js.JNull; AppDemo.searchQuery := "";
  AppDemo.searchResults := Js.JArr []; AppDemo.isLoading := false;
  AppDemo.activeTab := AppDemo.inventory; AppDemo.testResults := Js.JNull;
  AppDemo.error := None |}.

End Fixtures.

(** The requests of a poller: none before it starts, then the refresh
    followed by diagnostics requests only. *)
Definition poller_shaped {E S Flight} (first_request tick_request : Net.Request E)
    (p : Poll.Poller E S Flight) : Prop :=
  match Poll.phase p with
  | Poll.Idle => Async.requests (Async.trace (Poll.world p)) = []
  | _ => exists n, Async.requests (Async.trace (Poll.world p))
                   = first_request :: repeat tick_request (Datatypes.S n)
  end.

(** ** Proof steps *)

Ltac run_v3 :=
  unfold AppV3.run, AppV3.returned, AppV3.drain, AppV3.perform,
    AppV3.handleSearch, AppV3.handleDownload, AppV3.handleDelete,
    AppV3.handleSnippet, AppV3.handleVerify, AppV3.handleCleanup,
    AppV3.cleanupConfirm_Oui, AppV3.cleanupConfirm_Non,
    AppV3.handleCleanup_begin, AppV3.handleCleanup_resume,
    AppV3.resume, AppV3.call_fetchDiagnostics, AppV3.call_fetchModels,
    AppV3.fetchDiagnostics_begin, AppV3.fetchDiagnostics_resume,
    AppV3.fetchModels, AppV3.fetchModels_detached, AppV3.fetchModels_begin,
    AppV3.fetchModels_resume, AppV3.apiFetch, AppV3.received,
    Async.finally, Async.try_catch, Async.bind, Async.ret, Async.throw,
    Async.lift, Async.modify, Async.read, Async.emit, Async.detach,
    Async.fetch, Async.confirm, Async.alert, Async.start;
  cbn.

Ltac run_demo :=
  unfold AppDemo.resume, AppDemo.call_fetchDiagnostics, AppDemo.call_fetchModels,
    AppDemo.handleSearch, AppDemo.fetchModels, AppDemo.fetchModels_begin,
    AppDemo.fetchModels_resume, AppDemo.fetchDiagnostics,
    AppDemo.fetchDiagnostics_begin, AppDemo.fetchDiagnostics_resume,
    AppDemo.apiFetch, AppDemo.received,
    Async.finally, Async.try_catch, Async.bind, Async.ret, Async.throw,
    Async.lift, Async.modify, Async.read, Async.emit, Async.detach,
    Async.fetch, Async.confirm, Async.alert, Async.start;
  cbn.

Ltac run_more :=
  unfold AppDemo.handleTestAll, AppDemo.handleDeleteModel, AppDemo.setModels_by;
  run_demo.

(** Case analysis on every backend answer and user answer a run meets. *)
Ltac split_v3 :=
  repeat match goal with
  | |- context [Async.user_accepts ?e ?m] => destruct (Async.user_accepts e m) eqn:?; cbn
  | |- context [String.eqb ?x ?y] => destruct (String.eqb x y) eqn:?; cbn
  | |- context [AppV3.settle ?nb] => destruct (AppV3.settle nb) eqn:?; cbn
  | |- context [match AppV3.confirmMsg ?r ?c with _ => _ end] =>
      destruct (AppV3.confirmMsg r c) eqn:?; cbn
  | |- context [match Js.prop ?k ?v with _ => _ end] =>
      destruct (Js.prop k v) eqn:?; cbn
  end.


(** ** Strings *)

Lemma prefix_app_same (a b : string) : String.prefix a (a ++ b) = true.
Proof.
  induction a as [|c a IH]; simpl.
  - now destruct b.
  - destruct (ascii_dec c c) as [_|ne]; [exact IH | now elim ne].
Qed.

Lemma occurs_here (a b : string) : occurs a (a ++ b) = true.
Proof.
  generalize (prefix_app_same a b).
  destruct (a ++ b); simpl; intros ->; reflexivity.
Qed.

Lemma occurs_app_r (n a b : string) : occurs n b = true -> occurs n (a ++ b) = true.
Proof.
  intros H. induction a as [|c a IH]; simpl; [exact H|].
  rewrite IH. apply orb_true_r.
Qed.

Lemma append_empty_r (a : string) : a ++ "" = a.
Proof. induction a as [|c a IH]; simpl; [reflexivity | now rewrite IH]. Qed.

Lemma occurs_self (a : string) : occurs a a = true.
Proof.
  pose proof (occurs_here a "") as H. now rewrite append_empty_r in H.
Qed.

Lemma occurs_concat (sep f : string) (l : list string) :
  In f l -> occurs f (String.concat sep l) = true.
Proof.
  induction l as [|x l IH]; simpl; [tauto|].
  intros [-> | Hin].
  - destruct l; [apply occurs_self | apply occurs_here].
  - destruct l as [|y l]; [destruct Hin|].
    apply occurs_app_r, occurs_app_r, IH, Hin.
Qed.

Lemma prefix_app_l (n a b : string) :
  String.prefix n a = true -> String.prefix n (a ++ b) = true.
Proof.
  revert a. induction n as [|c n IH]; intros a H; [now destruct (a ++ b)|].
  destruct a as [|d a]; simpl in *; [discriminate|].
  destruct (ascii_dec c d); [now apply IH | discriminate].
Qed.

Lemma occurs_step (n : string) (c : ascii) (a : string) :
  occurs n (String c a) = String.prefix n (String c a) || occurs n a.
Proof. reflexivity. Qed.

Lemma occurs_app_l (n a b : string) : occurs n a = true -> occurs n (a ++ b) = true.
Proof.
  induction a as [|c a IH]; intros H.
  - destruct n; [now destruct b | discriminate].
  - change (String c a ++ b) with (String c (a ++ b)).
    rewrite occurs_step in H |- *.
    apply orb_true_iff in H as [H|H].
    + apply (prefix_app_l _ _ b) in H.
      change (String c a ++ b) with (String c (a ++ b)) in H. now rewrite H.
    + rewrite (IH H). apply orb_true_r.
Qed.

Lemma element_text_strings {E} (l : list string) :
  map (Js.element_text (E:=E)) (map Js.JStr l) = l.
Proof. induction l as [|x l IH]; simpl; [reflexivity | now rewrite IH]. Qed.

(** The runtime functions on small inputs. *)
Example encodeURIComponent_escapes :
  Js.encodeURIComponent "stable diffusion/é" = "stable%20diffusion%2F%C3%A9".
Proof. reflexivity. Qed.

Example utf16_length_counts_units : Js.utf16_length "é⚠️" = 3.
Proof. reflexivity. Qed.

Example join_renders_null_empty :
  Js.join (E:=Sample.engine) ", " (Js.JArr [Js.JStr "a.py"; Js.JNull; Js.JNum (E:=Sample.engine) 7])
  = Some "a.py, , 7".
Proof. reflexivity. Qed.

Example to_string_nested :
  Js.to_string (E:=Sample.engine)
    (Js.JArr [Js.JArr [Js.JBool true; Js.JUndefined]; Js.JObj []])
  = "true,,[object Object]".
Proof. reflexivity. Qed.

(** From here on the texts stay folded. *)
Arguments AppV3.customWarning : simpl never.
Arguments AppV3.customNote : simpl never.
Arguments AppV3.plainConfirm : simpl never.
Arguments String.append : simpl never.

(** ** Facts about the handlers *)



(** The timer of part_001 ends every call. *)
Lemma demo_settles {E} (nb : Net.Behaviour E) : AppDemo.settle nb <> Async.Pending.
Proof.
  destruct nb as [t m|t res|]; unfold AppDemo.settle;
    try destruct (AppDemo.TIMEOUT_MS <=? t)%nat; try discriminate.
  destruct (negb (Net.ok res)); [discriminate|].
  destruct (Net.body res); discriminate.
Qed.

(** ** The download confirmation *)

(** C1 (as the code has it).  For a preflight result with a boolean
    [is_standard] and a list of file names, [handleDownload] builds its
    confirmation text from three exhaustive cases: not standard, the
    warning with every file name, joined by a comma; standard with custom
    files, the note that [trust_remote_code=True] will be needed, which
    gives the number of files; standard without custom files, the plain
    question.  Every file name occurs in the warning. *)
Theorem download_confirmation_cases (E : Js.Engine) (repo : string) (c : PreflightCheck) :
  AppV3.confirmMsg repo (preflight_json (E:=E) c)
  = Async.Val
      (if negb (isStandard c)
       then AppV3.customWarning repo (String.concat ", " (customFiles c))
       else match customFiles c with
            | [] => AppV3.plainConfirm repo
            | _ :: _ => AppV3.customNote repo (Js.dec (List.length (customFiles c)))
            end)
  /\ forallb (fun f => occurs f (AppV3.customWarning repo
                                   (String.concat ", " (customFiles c))))
       (customFiles c) = true
  /\ occurs "trust_remote_code=True"
       (AppV3.customNote repo (Js.dec (List.length (customFiles c)))) = true.
Proof.
  destruct c as [rid std files]; cbn [customFiles isStandard repoId]. repeat split.
  - unfold AppV3.confirmMsg; simpl. destruct std; simpl.
    + destruct files; simpl; [reflexivity|]. now rewrite length_map.
    + now rewrite element_text_strings.
  - apply forallb_forall. intros f Hin. unfold AppV3.customWarning.
    do 5 apply occurs_app_r. apply occurs_app_l, occurs_concat, Hin.
  - unfold AppV3.customNote. do 6 apply occurs_app_r.
    apply occurs_app_l. reflexivity.
Qed.

(** The note for a standard repository with the custom file
    [modeling.py] does not contain that name. *)
Lemma note_omits_file_names :
  exists msg,
    AppV3.confirmMsg "org/std-model"
      (preflight_json (E:=Sample.engine) Sample.standard_with_code) = Async.Val msg
    /\ forallb (fun f => occurs f msg) (customFiles Sample.standard_with_code) = false.
Proof. eexists. split; [reflexivity | vm_compute; reflexivity]. Qed.

(** C2.  When the preflight call of [handleDownload] succeeds and the
    confirmation text is built, the user is asked once; on acceptance
    exactly one request goes to the download endpoint, right after the
    preflight; on refusal the preflight stays the only request and the
    handler returns. *)
Theorem download_gate (E : Js.Engine) (env : Async.Env E) (repo : string)
    (s : AppV3.State E) (check : Js.jsval E) (msg : string) :
  AppV3.settle (Async.backend env 0 (check_request repo)) = Async.Val check ->
  AppV3.confirmMsg repo check = Async.Val msg ->
  let r := AppV3.run (AppV3.handleDownload E env repo) s in
  let sent := Async.requests (Async.trace (AppV3.settled r)) in
  Async.confirms (Async.trace (AppV3.settled r)) = [(msg, Async.user_accepts env msg)]
  /\ if Async.user_accepts env msg
     then List.length (filter is_download_start sent) = 1
          /\ nth_error sent 1 = Some (download_request repo)
     else sent = [check_request repo] /\ AppV3.outcome r = Async.Val tt.
Proof.
  intros Hcheck Hmsg. run_v3.
  fold (@check_request E repo). rewrite Hcheck. cbn. rewrite Hmsg. cbn.
  destruct (Async.user_accepts env msg); cbn; [|auto].
  fold (@download_request E repo).
  split_v3; auto.
Qed.

Lemma download_gate_witness :
  let env := Sample.answering 20 (preflight_json Sample.custom_model) true in
  let msg := AppV3.customWarning "org/custom-model" "modeling.py, config.py" in
  let r := AppV3.run (AppV3.handleDownload Sample.engine env "org/custom-model")
             AppV3.initial in
  let sent := Async.requests (Async.trace (AppV3.settled r)) in
  Async.confirms (Async.trace (AppV3.settled r)) = [(msg, true)]
  /\ List.length (filter is_download_start sent) = 1
  /\ nth_error sent 1 = Some (download_request "org/custom-model").
Proof.
  cbv zeta.
  apply (download_gate Sample.engine
           (Sample.answering 20 (preflight_json Sample.custom_model) true)
           "org/custom-model" AppV3.initial (preflight_json Sample.custom_model)
           (AppV3.customWarning "org/custom-model" "modeling.py, config.py"));
    reflexivity.
Defined.

(** ** Search *)

(** C3.  [handleSearch] with an empty query issues no request and leaves
    the state, hence the stored results, as they were.  With any other
    query it issues exactly one request, the search, and stores what the
    backend delivered as it came; when the call fails App.tsx keeps the
    previous results and part_001 shows its demo hit. *)
Theorem search_guard_and_delivery (E : Js.Engine) (env : Async.Env E)
    (s3 : AppV3.State E) (sd : AppDemo.State E) :
  let r := AppV3.settled (AppV3.run (AppV3.handleSearch E env) s3) in
  let d := snd (AppDemo.handleSearch E env (Async.start sd)) in
  (if AppV3.searchQuery s3 =? ""
   then Async.requests (Async.trace r) = [] /\ Async.ui r = s3
   else Async.requests (Async.trace r) = [search_request (AppV3.searchQuery s3)]
        /\ AppV3.searchResults (Async.ui r)
           = match AppV3.settle (Async.backend env 0
                                   (search_request (AppV3.searchQuery s3))) with
             | Async.Val data => data
             | _ => AppV3.searchResults s3
             end)
  /\ (if AppDemo.searchQuery sd =? ""
      then Async.requests (Async.trace d) = [] /\ Async.ui d = sd
      else Async.requests (Async.trace d)
           = [demo_search_request (AppDemo.searchQuery sd)]
           /\ AppDemo.searchResults (Async.ui d)
              = match AppDemo.settle (Async.backend env 0
                                        (demo_search_request (AppDemo.searchQuery sd))) with
                | Async.Val data => data
                | _ => demo_hit (AppDemo.searchQuery sd)
                end).
Proof.
  split.
  - run_v3. destruct (AppV3.searchQuery s3 =? ""); cbn; [auto|].
    fold (@search_request E (AppV3.searchQuery s3)).
    split_v3; auto.
  - run_demo. destruct (AppDemo.searchQuery sd =? ""); cbn; [auto|].
    fold (@demo_search_request E (AppDemo.searchQuery sd)).
    destruct (AppDemo.settle _) eqn:Hs; cbn; try (split; reflexivity).
    now apply demo_settles in Hs.
Qed.

(** ** The busy flag *)



(** ** Refresh of the inventory *)

(** C5.  When the call of [fetchModels] fails, App.tsx sets its notice and
    keeps the models it had; part_001 sets its notice and replaces the
    models by the fixed demo list. *)
Theorem refresh_failure_policies (E : Js.Engine) (env : Async.Env E)
    (s3 : AppV3.State E) (sd : AppDemo.State E) (err3 errd : Js.JsError) :
  AppV3.settle (Async.backend env 0 models_request) = Async.Throw err3 ->
  AppDemo.settle (Async.backend env 0 demo_models_request) = Async.Throw errd ->
  let w3 := snd (AppV3.fetchModels E env (Async.start s3)) in
  let wd := snd (AppDemo.fetchModels E env (Async.start sd)) in
  (AppV3.error (Async.ui w3)
     = Some "Backend indisponible. Vérifiez que 'main.py' est lancé."
   /\ AppV3.models (Async.ui w3) = AppV3.models s3)
  /\ (AppDemo.error (Async.ui wd) = Some "Serveur Backend non détecté (Mode Démo activé)"
      /\ AppDemo.models (Async.ui wd) = AppDemo.getMockModels).
Proof.
  intros H3 Hd. split.
  - run_v3. fold (@models_request E). rewrite H3. cbn. auto.
  - run_demo. fold (@demo_models_request E). rewrite Hd. cbn. auto.
Qed.

Lemma refresh_failure_policies_witness :
  let env := Sample.unreachable true in
  let w3 := snd (AppV3.fetchModels Sample.engine env (Async.start AppV3.initial)) in
  let wd := snd (AppDemo.fetchModels Sample.engine env (Async.start AppDemo.initial)) in
  (AppV3.error (Async.ui w3)
     = Some "Backend indisponible. Vérifiez que 'main.py' est lancé."
   /\ AppV3.models (Async.ui w3) = Js.JArr [])
  /\ (AppDemo.error (Async.ui wd) = Some "Serveur Backend non détecté (Mode Démo activé)"
      /\ AppDemo.models (Async.ui wd) = AppDemo.getMockModels).
Proof.
  cbv zeta.
  apply (refresh_failure_policies Sample.engine (Sample.unreachable true)
           AppV3.initial AppDemo.initial
           (Js.mkError Js.TypeError "Failed to fetch")
           (Js.mkError Js.TypeError "Failed to fetch"));
    reflexivity.
Defined.

(** ** The request timer *)

(** C6 (as the code has it).  In part_001, where [apiFetch] arms a timer
    of [TIMEOUT_MS], a call to which nothing has come back when the timer
    fires is aborted through its signal and fails with the abort error;
    a call that did get its answer in time never fails with the abort
    error, fails with a TypeError only when the transport failed, and no
    call stays pending. *)
Theorem timer_aborts_late_calls (E : Js.Engine) (nb : Net.Behaviour E) :
  (if late nb
   then AppDemo.settle nb
        = Async.Throw (Js.mkError Js.AbortError (Js.fault_text E Js.FetchAborted))
   else match AppDemo.settle nb with
        | Async.Throw err =>
            match Js.name err with
            | Js.AbortError => False
            | Js.TypeError => exists after msg, nb = Net.Refused after msg
            | _ => exists after res, nb = Net.Answered after res
            end
        | Async.Val _ => exists after res, nb = Net.Answered after res
        | Async.Pending => False
        end)
  /\ Net.signal (AppDemo.request (E:=E) "/models" Net.no_options) = true.
Proof.
  split; [|reflexivity].
  destruct nb as [t m|t res|]; unfold AppDemo.settle; cbn -[AppDemo.TIMEOUT_MS Nat.leb].
  - destruct (AppDemo.TIMEOUT_MS <=? t)%nat; cbn; eauto.
  - destruct (AppDemo.TIMEOUT_MS <=? t)%nat; cbn; [reflexivity|].
    destruct (Net.ok res); cbn; [|eauto]. destruct (Net.body res); cbn; eauto.
  - reflexivity.
Qed.

(** App.tsx arms no timer: an answer that comes after twice the delay of
    part_001 is delivered, and a call without answer stays pending. *)
Lemma no_timer_in_v3 :
  let data : Js.jsval Sample.engine := Js.JArr [] in
  (AppDemo.TIMEOUT_MS < 2 * AppDemo.TIMEOUT_MS)%nat
  /\ AppV3.settle (Net.Answered (2 * AppDemo.TIMEOUT_MS) (Sample.ok_response data))
     = Async.Val data
  /\ AppV3.settle (E:=Sample.engine) Net.Silent = Async.Pending
  /\ Net.signal (AppV3.request (E:=Sample.engine) "/models" Net.no_options) = false.
Proof. cbv zeta. split; [unfold AppDemo.TIMEOUT_MS; lia|]. repeat split. Qed.

(** ** Cleanup *)



(** ** The custom branch of the confirmation *)

(** C10.  When the preflight answer is an object whose [is_standard] is
    falsy, the text is built by joining [custom_files]: with an array
    there, the user is asked with the warning; with anything else, or
    nothing, the construction throws, the user is never asked, no second
    request is sent, the error text is shown and the flag is cleared.
    When [is_standard] is truthy a text is built and the user is asked
    whatever [custom_files] is. *)
Theorem custom_branch_needs_file_list (E : Js.Engine) (env : Async.Env E) (repo : string)
    (s : AppV3.State E) (check is_standard custom_files : Js.jsval E) :
  AppV3.settle (Async.backend env 0 (check_request repo)) = Async.Val check ->
  Js.prop "is_standard" check = Some is_standard ->
  Js.prop "custom_files" check = Some custom_files ->
  let r := AppV3.run (AppV3.handleDownload E env repo) s in
  let asked := Async.confirms (Async.trace (AppV3.settled r)) in
  if Js.truthy is_standard
  then exists msg, AppV3.confirmMsg repo check = Async.Val msg
                   /\ asked = [(msg, Async.user_accepts env msg)]
  else match custom_files with
       | Js.JArr items =>
           let msg := AppV3.customWarning repo
                        (String.concat ", " (map Js.element_text items)) in
           AppV3.confirmMsg repo check = Async.Val msg
           /\ asked = [(msg, Async.user_accepts env msg)]
       | _ =>
           (exists err, AppV3.confirmMsg repo check = Async.Throw err
                        /\ AppV3.error (Async.ui (AppV3.settled r))
                           = Some (Js.message err))
           /\ asked = []
           /\ Async.requests (Async.trace (AppV3.settled r)) = [check_request repo]
           /\ AppV3.isLoading (Async.ui (AppV3.settled r)) = false
           /\ AppV3.outcome r = Async.Val tt
       end.
Proof.
  intros Hcheck Hstd Hfiles.
  assert (Hmsg : AppV3.confirmMsg repo check =
    if negb (Js.truthy is_standard) then
      match custom_files with
      | Js.JUndefined | Js.JNull =>
          Async.Throw (Js.mkError Js.TypeError (Js.fault_text E (Js.ReadOfNullish "join")))
      | Js.JArr items =>
          Async.Val (AppV3.customWarning repo
                       (String.concat ", " (map Js.element_text items)))
      | _ =>
          Async.Throw (Js.mkError Js.TypeError (Js.fault_text E (Js.NotAFunction "join")))
      end
    else if Js.truthy custom_files && Js.length_positive custom_files
         then Async.Val (AppV3.customNote repo (Js.length_text custom_files))
         else Async.Val (AppV3.plainConfirm repo)).
  { unfold AppV3.confirmMsg. rewrite Hstd, Hfiles.
    destruct (negb (Js.truthy is_standard)); [|reflexivity].
    destruct custom_files; reflexivity. }
  run_v3. fold (@check_request E repo). rewrite Hcheck. cbn.
  rewrite Hmsg. destruct (Js.truthy is_standard); cbn.
  - destruct (Js.truthy custom_files && Js.length_positive custom_files); cbn;
      eexists; (split; [reflexivity|]); split_v3; reflexivity.
  - destruct custom_files; cbn;
      try (split; [eexists; split; reflexivity | repeat split; reflexivity]).
    split; [reflexivity|]. split_v3; reflexivity.
Qed.

Lemma custom_branch_needs_file_list_witness :
  let env := Sample.answering 20 Sample.bare_custom true in
  let r := AppV3.run (AppV3.handleDownload Sample.engine env "org/bare") AppV3.initial in
  (exists err, AppV3.confirmMsg "org/bare" Sample.bare_custom = Async.Throw err
               /\ AppV3.error (Async.ui (AppV3.settled r)) = Some (Js.message err))
  /\ Async.confirms (Async.trace (AppV3.settled r)) = []
  /\ Async.requests (Async.trace (AppV3.settled r)) = [check_request "org/bare"]
  /\ AppV3.isLoading (Async.ui (AppV3.settled r)) = false
  /\ AppV3.outcome r = Async.Val tt.
Proof.
  cbv zeta.
  apply (custom_branch_needs_file_list Sample.engine
           (Sample.answering 20 Sample.bare_custom true) "org/bare" AppV3.initial
           Sample.bare_custom (Js.JBool false) Js.JUndefined);
    reflexivity.
Defined.

(** ** The poller *)



Section PollerFacts.
Context {E : Js.Engine} {S Flight : Type}.
Variable call_models call_diagnostics : Async.Act E S Flight.
Variable resume : Flight -> Async.Act E S unit.

Local Abbreviation step := (Poll.step call_models call_diagnostics resume).
Local Abbreviation exec := (Poll.exec call_models call_diagnostics resume).
Local Abbreviation round := (Poll.round call_models call_diagnostics resume).

(** The rest of a call never starts a request. *)
Hypothesis resume_quiet :
  forall f w, Async.requests (Async.trace (snd (resume f w)))
              = Async.requests (Async.trace w).

Lemma stopped_step (p : Poll.Poller E S Flight) (ev : Poll.PollEvent) :
  Poll.phase p = Poll.Stopped ->
  Poll.phase (step p ev) = Poll.Stopped
  /\ Async.requests (Async.trace (Poll.world (step p ev)))
     = Async.requests (Async.trace (Poll.world p)).
Proof.
  intros Hp. unfold Poll.step. rewrite Hp.
  destruct ev; auto.
  unfold Poll.arrive. destruct (nth_error _ _); cbn; auto.
Qed.

Lemma stopped_exec (evs : list Poll.PollEvent) (p : Poll.Poller E S Flight) :
  Poll.phase p = Poll.Stopped ->
  Poll.phase (exec evs p) = Poll.Stopped
  /\ Async.requests (Async.trace (Poll.world (exec evs p)))
     = Async.requests (Async.trace (Poll.world p)).
Proof.
  revert p. induction evs as [|ev evs IH]; intros p Hp; [auto|].
  destruct (stopped_step p ev Hp) as [Hph Hreq].
  destruct (IH _ Hph) as [H1 H2].
  change (exec (ev :: evs) p) with (exec evs (step p ev)).
  split; [exact H1 | congruence].
Qed.

Lemma stop_then (before after : list Poll.PollEvent) (p : Poll.Poller E S Flight) :
  Poll.phase (exec before p) = Poll.Polling ->
  Poll.phase (exec (before ++ Poll.Stop :: after)%list p) = Poll.Stopped
  /\ Async.requests (Async.trace (Poll.world (exec (before ++ Poll.Stop :: after)%list p)))
     = Async.requests (Async.trace (Poll.world (exec before p))).
Proof.
  intros Hp. unfold Poll.exec. rewrite fold_left_app. cbn [fold_left].
  fold (exec before p).
  assert (Hs : step (exec before p) Poll.Stop
               = Poll.with_phase Poll.Stopped (exec before p)).
  { unfold Poll.step. now rewrite Hp. }
  rewrite Hs.
  destruct (stopped_exec after (Poll.with_phase Poll.Stopped (exec before p)) eq_refl)
    as [H1 H2].
  split; [exact H1 | exact H2].
Qed.


End PollerFacts.

Lemma v3_resume_quiet {E} (f : AppV3.Flight E) (w : Async.World E (AppV3.State E)) :
  Async.requests (Async.trace (snd (AppV3.resume E f w))) = Async.requests (Async.trace w).
Proof.
  destruct f as [nb|nb]; run_v3; destruct (AppV3.settle nb); cbn;
    unfold Async.requests; rewrite ?flat_map_app; cbn; rewrite ?app_nil_r; reflexivity.
Qed.

Lemma demo_resume_quiet {E} (f : AppDemo.Flight E) (w : Async.World E (AppDemo.State E)) :
  Async.requests (Async.trace (snd (AppDemo.resume E f w))) = Async.requests (Async.trace w).
Proof.
  destruct f as [nb|seen nb]; run_demo; destruct (AppDemo.settle nb); cbn;
    try destruct (negb (Js.truthy seen)); cbn;
    unfold Async.requests; rewrite ?flat_map_app; cbn; rewrite ?app_nil_r; reflexivity.
Qed.





(** C8 (as the code has it).  Once the polling effect is torn down, no
    event whatever makes it start a request: the timer is cleared and the
    calls still in flight only finish. *)
Theorem stop_cancels_ticks (E : Js.Engine) (env : Async.Env E)
    (s3 : AppV3.State E) (sd : AppDemo.State E) (before after : list Poll.PollEvent) :
  Poll.phase (AppV3.poll E env before (Poll.idle s3)) = Poll.Polling ->
  Poll.phase (AppDemo.poll E env before (Poll.idle sd)) = Poll.Polling ->
  Async.requests (Async.trace (Poll.world
     (AppV3.poll E env (before ++ Poll.Stop :: after)%list (Poll.idle s3))))
  = Async.requests (Async.trace (Poll.world (AppV3.poll E env before (Poll.idle s3))))
  /\ Async.requests (Async.trace (Poll.world
       (AppDemo.poll E env (before ++ Poll.Stop :: after)%list (Poll.idle sd))))
     = Async.requests (Async.trace (Poll.world (AppDemo.poll E env before (Poll.idle sd)))).
Proof.
  intros H3 Hd. split.
  - apply (stop_then _ _ _ (@v3_resume_quiet E)), H3.
  - apply (stop_then _ _ _ (@demo_resume_quiet E)), Hd.
Qed.

Lemma stop_cancels_ticks_witness :
  let env := Sample.answering 40 Sample.snapshot true in
  let after := [Poll.Tick; Poll.Start; Poll.Settle 0; Poll.Tick] in
  List.length (Async.requests (Async.trace (Poll.world
     (AppV3.poll Sample.engine env ([Poll.Start; Poll.Tick] ++ Poll.Stop :: after)%list
        (Poll.idle AppV3.initial))))) = 3
  /\ List.length (Async.requests (Async.trace (Poll.world
       (AppDemo.poll Sample.engine env ([Poll.Start; Poll.Tick] ++ Poll.Stop :: after)%list
          (Poll.idle AppDemo.initial))))) = 3.
Proof.
  cbv zeta.
  destruct (stop_cancels_ticks Sample.engine (Sample.answering 40 Sample.snapshot true)
              AppV3.initial AppDemo.initial [Poll.Start; Poll.Tick]
              [Poll.Tick; Poll.Start; Poll.Settle 0; Poll.Tick] eq_refl eq_refl)
    as [H3 Hd].
  rewrite H3, Hd. split; reflexivity.
Defined.

(** A diagnostics call is in flight when the effect is torn down; when it
    ends, its result becomes the snapshot.  In App.tsx the call is the one
    of [Start]; in part_001 the first call has delivered its snapshot (on
    which React tears the effect down) while the call of a tick is still
    in flight, and the result of that call replaces the snapshot. *)
Lemma in_flight_result_applied_after_stop :
  let torn3 := AppV3.poll _ Sample.counting [Poll.Start; Poll.Stop]
                 (Poll.idle AppV3.initial) in
  let tornd := AppDemo.poll _ Sample.counting
                 [Poll.Start; Poll.Tick; Poll.Settle 1; Poll.Stop]
                 (Poll.idle AppDemo.initial) in
  (Poll.phase torn3 = Poll.Stopped
   /\ AppV3.diagnostics (Async.ui (Poll.world torn3)) = Js.JNull
   /\ AppV3.diagnostics (Async.ui (Poll.world
        (AppV3.poll _ Sample.counting [Poll.Settle 1] torn3)))
      = Sample.numbered_snapshot 1)
  /\ (Poll.phase tornd = Poll.Stopped
      /\ AppDemo.diagnostics (Async.ui (Poll.world tornd)) = Sample.numbered_snapshot 1
      /\ AppDemo.diagnostics (Async.ui (Poll.world
           (AppDemo.poll _ Sample.counting [Poll.Settle 1] tornd)))
         = Sample.numbered_snapshot 2).
Proof. vm_compute. repeat split. Qed.

(** ** More of the two files: the gateway *)

(** X1.  A response with a status outside 200-299 never resolves
    [apiFetch].  App.tsx throws an Error whose text is the [detail] of the
    JSON body when that is truthy, the generic "Erreur API: status" when it
    is not, and, for a body that is not JSON, the status text or, when that
    is empty, the generic text; it logs the error and leaves the state
    alone.  part_001 throws "API Error: status" whatever the body holds. *)
Theorem api_error_envelope (E : Js.Engine) (env : Async.Env E) (endpoint : string)
    (options : Net.Options E) (s3 : AppV3.State E) (sd : AppDemo.State E)
    (after : nat) (res : Net.Response E) :
  Async.backend env 0 (AppV3.request endpoint options) = Net.Answered after res ->
  Async.backend env 0 (AppDemo.request endpoint options) = Net.Answered after res ->
  Net.ok res = false ->
  (after < AppDemo.TIMEOUT_MS)%nat ->
  let fallback := "Erreur API: " ++ Js.dec (Net.status res) in
  (exists err,
     AppV3.apiFetch E env endpoint options (Async.start s3)
     = (Async.Throw err,
        {| Async.ui := s3;
           Async.trace := [Async.EFetch (AppV3.request endpoint options);
                           Async.EConsoleError err];
           Async.background := [] |})
     /\ Js.message err
        = match Net.body res with
          | Net.NotJson _ =>
              if Net.statusText res =? "" then fallback else Net.statusText res
          | Net.Json v =>
              match Js.prop "detail" v with
              | None => Js.fault_text E (Js.ReadOfNullish "detail")
              | Some detail => if Js.truthy detail then Js.to_string detail else fallback
              end
          end)
  /\ fst (AppDemo.apiFetch E env endpoint options (Async.start sd))
     = Async.Throw (Js.mkError Js.Error ("API Error: " ++ Js.dec (Net.status res))).
Proof.
  intros H3 Hd Hok Hlate. cbv zeta. split.
  - unfold AppV3.apiFetch, AppV3.received, Async.bind, Async.fetch, Async.start. cbn.
    rewrite H3. unfold AppV3.settle. rewrite Hok. cbn.
    destruct (Net.body res) as [v|m]; cbn.
    + destruct (Js.prop "detail" v) as [d|]; cbn; eexists; split; reflexivity.
    + destruct (Net.statusText res =? ""); cbn; eexists; split; reflexivity.
  - unfold AppDemo.apiFetch, AppDemo.received, Async.bind, Async.fetch, Async.start. cbn.
    rewrite Hd. unfold AppDemo.settle.
    apply Nat.leb_gt in Hlate. rewrite Hlate, Hok. reflexivity.
Qed.

Lemma api_error_envelope_witness :
  let env := Fixtures.rejecting 404 (Js.JObj [("detail", Js.JStr "Modèle introuvable")])
               true in
  (exists err,
     fst (AppV3.apiFetch Sample.engine env "/models/verify" Net.no_options
            (Async.start AppV3.initial)) = Async.Throw err
     /\ Js.message err = "Modèle introuvable")
  /\ fst (AppDemo.apiFetch Sample.engine env "/models/verify" Net.no_options
            (Async.start AppDemo.initial))
     = Async.Throw (Js.mkError Js.Error "API Error: 404").
Proof.
  cbv zeta.
  destruct (api_error_envelope Sample.engine
              (Fixtures.rejecting 404 (Js.JObj [("detail", Js.JStr "Modèle introuvable")])
                 true)
              "/models/verify" Net.no_options AppV3.initial AppDemo.initial 15
              {| Net.status := 404; Net.statusText := "Not Found";
                 Net.body := Net.Json (Js.JObj [("detail", Js.JStr "Modèle introuvable")]) |}
              eq_refl eq_refl eq_refl)
    as [[err [Hrun Hmsg]] Hdemo].
  - unfold AppDemo.TIMEOUT_MS. lia.
  - split; [|exact Hdemo]. exists err. rewrite Hrun. split; [reflexivity | exact Hmsg].
Defined.

(** ** More of App.tsx: the handlers *)

(** X2.  [handleDelete] asks once.  Refused, it sends nothing and leaves
    the state as it was.  Accepted, it sends the DELETE request, and then
    the refresh exactly when the backend confirmed the deletion; when the
    deletion fails the models stay and the error text is shown. *)
Theorem delete_waits_for_backend (E : Js.Engine) (env : Async.Env E) (repo : string)
    (s : AppV3.State E) :
  let prompt := "Supprimer " ++ repo ++ " ? Cette action est irréversible." in
  let r := AppV3.run (AppV3.handleDelete E env repo) s in
  let sent := Async.requests (Async.trace (AppV3.settled r)) in
  Async.confirms (Async.trace (AppV3.settled r)) = [(prompt, Async.user_accepts env prompt)]
  /\ if Async.user_accepts env prompt
     then match AppV3.settle (Async.backend env 0 (delete_request repo)) with
          | Async.Val _ => sent = [delete_request repo; models_request]
          | Async.Throw err =>
              sent = [delete_request repo]
              /\ AppV3.models (Async.ui (AppV3.settled r)) = AppV3.models s
              /\ AppV3.error (Async.ui (AppV3.settled r)) = Some (Js.message err)
          | Async.Pending => sent = [delete_request repo]
          end
     else sent = [] /\ Async.ui (AppV3.settled r) = s.
Proof.
  run_v3. fold (@delete_request E repo).
  destruct (Async.user_accepts env _); cbn; [|auto].
  destruct (AppV3.settle (Async.backend env 0 (delete_request repo))); cbn; auto.
  fold (@models_request E). split_v3; auto.
Qed.

(** X3.  After an accepted confirmation, when the download call is
    acknowledged [handleDownload] shows its alert, switches to the
    inventory tab, starts the refresh and returns without waiting for it:
    at its return the models are the old ones and the refresh is still in
    flight; the models change only when the refresh delivers.  When the
    download call fails there is no alert, no tab switch and no refresh,
    and the error text is shown. *)
Theorem download_does_not_wait_for_refresh (E : Js.Engine) (env : Async.Env E)
    (repo : string) (s : AppV3.State E) (check : Js.jsval E) (msg : string) :
  AppV3.settle (Async.backend env 0 (check_request repo)) = Async.Val check ->
  AppV3.confirmMsg repo check = Async.Val msg ->
  Async.user_accepts env msg = true ->
  let r := AppV3.run (AppV3.handleDownload E env repo) s in
  let sent := Async.requests (Async.trace (AppV3.settled r)) in
  match AppV3.settle (Async.backend env 1 (download_request repo)) with
  | Async.Val _ =>
      AppV3.outcome r = Async.Val tt
      /\ alerts (Async.trace (AppV3.at_return r)) = ["Téléchargement lancé en arrière-plan."]
      /\ AppV3.activeTab (Async.ui (AppV3.at_return r)) = AppV3.inventory
      /\ AppV3.models (Async.ui (AppV3.at_return r)) = AppV3.models s
      /\ Async.background (AppV3.at_return r) = [Async.backend env 2 models_request]
      /\ sent = [check_request repo; download_request repo; models_request]
      /\ AppV3.models (Async.ui (AppV3.settled r))
         = match AppV3.settle (Async.backend env 2 models_request) with
           | Async.Val data => data
           | _ => AppV3.models s
           end
  | Async.Throw err =>
      alerts (Async.trace (AppV3.settled r)) = []
      /\ AppV3.activeTab (Async.ui (AppV3.settled r)) = AppV3.activeTab s
      /\ AppV3.error (Async.ui (AppV3.settled r)) = Some (Js.message err)
      /\ sent = [check_request repo; download_request repo]
  | Async.Pending =>
      AppV3.outcome r = Async.Pending /\ AppV3.isLoading (Async.ui (AppV3.settled r)) = true
  end.
Proof.
  intros Hcheck Hmsg Hacc. run_v3.
  fold (@check_request E repo). rewrite Hcheck. cbn. rewrite Hmsg. cbn. rewrite Hacc. cbn.
  fold (@download_request E repo).
  destruct (AppV3.settle (Async.backend env 1 (download_request repo))); cbn;
    [|repeat split; reflexivity|repeat split; reflexivity].
  fold (@models_request E).
  destruct (AppV3.settle (Async.backend env 2 models_request)); cbn;
    repeat split; reflexivity.
Qed.

Lemma download_does_not_wait_for_refresh_witness :
  let env := Sample.answering 20 (preflight_json Sample.custom_model) true in
  let r := AppV3.run (AppV3.handleDownload Sample.engine env "org/custom-model")
             AppV3.initial in
  AppV3.models (Async.ui (AppV3.at_return r)) = Js.JArr []
  /\ List.length (Async.background (AppV3.at_return r)) = 1
  /\ AppV3.models (Async.ui (AppV3.settled r)) = preflight_json Sample.custom_model.
Proof.
  cbv zeta.
  pose proof (download_does_not_wait_for_refresh Sample.engine
                (Sample.answering 20 (preflight_json Sample.custom_model) true)
                "org/custom-model" AppV3.initial (preflight_json Sample.custom_model)
                (AppV3.customWarning "org/custom-model" "modeling.py, config.py")
                eq_refl eq_refl eq_refl) as H.
  cbv zeta in H.
  change (AppV3.settle
            (Async.backend (Sample.answering 20 (preflight_json Sample.custom_model) true)
               1 (download_request "org/custom-model")))
    with (Async.Val (preflight_json (E:=Sample.engine) Sample.custom_model)) in H.
  cbv beta iota in H.
  destruct H as (_ & _ & _ & Hm & Hb & _ & Hs).
  rewrite Hm, Hb, Hs. repeat split.
Defined.

(** X4.  Whatever action of App.tsx runs, a DELETE request or a request to
    the download endpoint is in its trace only when the user was asked
    once and accepted. *)
Theorem irreversible_calls_are_confirmed (E : Js.Engine) (env : Async.Env E)
    (a : AppV3.Action) (s : AppV3.State E) :
  let r := AppV3.settled (AppV3.run (AppV3.perform E env a) s) in
  let sent := Async.requests (Async.trace r) in
  existsb is_delete sent || existsb is_download_start sent = true ->
  exists msg, Async.confirms (Async.trace r) = [(msg, true)].
Proof.
  destruct a; run_v3; split_v3; intros H; try discriminate H; eauto.
Qed.

Lemma irreversible_calls_are_confirmed_witness :
  exists msg,
    Async.confirms (Async.trace (AppV3.settled
      (AppV3.run (AppV3.perform Sample.engine (Sample.answering 20 (Js.JObj []) true)
                    (AppV3.Delete "org/custom-model")) AppV3.initial)))
    = [(msg, true)].
Proof.
  apply (irreversible_calls_are_confirmed Sample.engine
           (Sample.answering 20 (Js.JObj []) true) (AppV3.Delete "org/custom-model")
           AppV3.initial).
  reflexivity.
Defined.

(** ** More of part_001: the handlers *)

Lemma demoReport_models {E} (l : list ModelInfo) :
  AppDemo.demoReport (E:=E) (Js.JArr (map model_json l))
  = Async.Val (Js.JArr (map (fun m => demo_line (Nom m)) l)).
Proof.
  unfold AppDemo.demoReport.
  assert (H : AppDemo.map_throwing E AppDemo.demoCheck (Js.ReadOfNullish "Nom")
                (map model_json l)
              = Async.Val (map (fun m => demo_line (Nom m)) l)).
  { induction l as [|m l IH]; [reflexivity|].
    cbn [map AppDemo.map_throwing]. rewrite IH. reflexivity. }
  now rewrite H.
Qed.

Lemma withoutRepo_models {E} (repo : string) (l : list ModelInfo) :
  AppDemo.withoutRepo (E:=E) repo (Js.JArr (map model_json l))
  = Async.Val (Js.JArr (map model_json
                 (filter (fun m => negb (RepoID m =? repo)) l))).
Proof.
  unfold AppDemo.withoutRepo.
  assert (H : AppDemo.filter_throwing E (AppDemo.otherRepo repo) (Js.ReadOfNullish "RepoID")
                (map model_json l)
              = Async.Val (map model_json (filter (fun m => negb (RepoID m =? repo)) l))).
  { induction l as [|m l IH]; [reflexivity|].
    cbn [map AppDemo.filter_throwing filter]. rewrite IH.
    change (AppDemo.otherRepo repo (model_json (E:=E) m))
      with (Some (negb (RepoID m =? repo))).
    destruct (negb (RepoID m =? repo)); reflexivity. }
  now rewrite H.
Qed.

(** X5.  When the test call fails, [handleTestAll] reports one line per
    model of the list it has, in the order of the list and under the name
    of the model, each marked "Oui"; it shows no notice, keeps the models
    and lowers the flag. *)
Theorem test_fallback_reports_all_healthy (E : Js.Engine) (env : Async.Env E)
    (s : AppDemo.State E) (err : Js.JsError) (l : list ModelInfo) :
  AppDemo.settle (Async.backend env 0 demo_test_request) = Async.Throw err ->
  AppDemo.models s = Js.JArr (map model_json l) ->
  let out := AppDemo.handleTestAll E env (Async.start s) in
  fst out = Async.Val tt
  /\ AppDemo.testResults (Async.ui (snd out))
     = Js.JArr (map (fun m => demo_line (Nom m)) l)
  /\ AppDemo.isLoading (Async.ui (snd out)) = false
  /\ AppDemo.error (Async.ui (snd out)) = AppDemo.error s
  /\ AppDemo.models (Async.ui (snd out)) = AppDemo.models s.
Proof.
  intros Hf Hl. run_more. fold (@demo_test_request E). rewrite Hf. cbn.
  rewrite Hl, demoReport_models. cbn. auto.
Qed.

Lemma test_fallback_reports_all_healthy_witness :
  let out := AppDemo.handleTestAll Sample.engine (Sample.unreachable true)
               (Async.start (Fixtures.with_models [Fixtures.llama; Fixtures.sdxl])) in
  fst out = Async.Val tt
  /\ AppDemo.testResults (Async.ui (snd out))
     = Js.JArr [demo_line "Kibali-Llama-3-Mock"; demo_line "Kibali-StableDiffusion-XL"].
Proof.
  cbv zeta.
  destruct (test_fallback_reports_all_healthy Sample.engine (Sample.unreachable true)
              (Fixtures.with_models [Fixtures.llama; Fixtures.sdxl])
              (Js.mkError Js.TypeError "Failed to fetch")
              [Fixtures.llama; Fixtures.sdxl] eq_refl eq_refl)
    as (Hout & Hrep & _).
  split; [exact Hout | exact Hrep].
Defined.

(** X6.  When the user accepts and the DELETE call of
    [handleDeleteModel] fails, the models of that repository, and only
    those, leave the list, the others keeping their order; no notice is
    shown, nothing else is sent and the flag is lowered. *)
Theorem failed_delete_drops_model_locally (E : Js.Engine) (env : Async.Env E)
    (repo : string) (s : AppDemo.State E) (err : Js.JsError) (l : list ModelInfo) :
  Async.user_accepts env ("Voulez-vous vraiment supprimer " ++ repo ++ " ?") = true ->
  AppDemo.settle (Async.backend env 0 (demo_delete_request repo)) = Async.Throw err ->
  AppDemo.models s = Js.JArr (map model_json l) ->
  let out := AppDemo.handleDeleteModel E env repo (Async.start s) in
  fst out = Async.Val tt
  /\ AppDemo.models (Async.ui (snd out))
     = Js.JArr (map model_json (filter (fun m => negb (RepoID m =? repo)) l))
  /\ AppDemo.error (Async.ui (snd out)) = AppDemo.error s
  /\ Async.requests (Async.trace (snd out)) = [demo_delete_request repo]
  /\ AppDemo.isLoading (Async.ui (snd out)) = false.
Proof.
  intros Hacc Hf Hl. run_more. rewrite Hacc. cbn.
  fold (@demo_delete_request E repo). rewrite Hf. cbn.
  rewrite Hl, withoutRepo_models. cbn. auto.
Qed.

Lemma failed_delete_drops_model_locally_witness :
  let out := AppDemo.handleDeleteModel Sample.engine (Sample.unreachable true)
               "meta-llama/Llama-3-8B"
               (Async.start (Fixtures.with_models [Fixtures.llama; Fixtures.sdxl])) in
  AppDemo.models (Async.ui (snd out)) = Js.JArr [model_json Fixtures.sdxl]
  /\ AppDemo.error (Async.ui (snd out)) = None.
Proof.
  cbv zeta.
  destruct (failed_delete_drops_model_locally Sample.engine (Sample.unreachable true)
              "meta-llama/Llama-3-8B"
              (Fixtures.with_models [Fixtures.llama; Fixtures.sdxl])
              (Js.mkError Js.TypeError "Failed to fetch")
              [Fixtures.llama; Fixtures.sdxl] eq_refl eq_refl eq_refl)
    as (_ & Hm & He & _).
  split; [exact Hm | exact He].
Defined.

(** ** More of the polling effect *)

Section PollerShape.
Context {E : Js.Engine} {S Flight : Type}.
Variable call_models call_diagnostics : Async.Act E S Flight.
Variable resume : Flight -> Async.Act E S unit.
Variable first_request tick_request : Net.Request E.

Local Abbreviation step := (Poll.step call_models call_diagnostics resume).
Local Abbreviation exec := (Poll.exec call_models call_diagnostics resume).
Local Abbreviation shaped := (poller_shaped (S:=S) (Flight:=Flight) first_request tick_request).

Hypothesis resume_quiet :
  forall f w, Async.requests (Async.trace (snd (resume f w)))
              = Async.requests (Async.trace w).
Hypothesis models_call :
  forall w, exists f w', call_models w = (Async.Val f, w')
    /\ Async.requests (Async.trace w')
       = (Async.requests (Async.trace w) ++ [first_request])%list.
Hypothesis diagnostics_call :
  forall w, exists f w', call_diagnostics w = (Async.Val f, w')
    /\ Async.requests (Async.trace w')
       = (Async.requests (Async.trace w) ++ [tick_request])%list.

Lemma call_requests (c : Async.Act E S Flight) (q : Net.Request E)
    (p : Poll.Poller E S Flight) :
  (forall w, exists f w', c w = (Async.Val f, w')
     /\ Async.requests (Async.trace w') = (Async.requests (Async.trace w) ++ [q])%list) ->
  Poll.phase (Poll.call c p) = Poll.phase p
  /\ Async.requests (Async.trace (Poll.world (Poll.call c p)))
     = (Async.requests (Async.trace (Poll.world p)) ++ [q])%list.
Proof.
  intros Hc. destruct (Hc (Poll.world p)) as (f & w' & Hcall & Hreq).
  unfold Poll.call. rewrite Hcall. cbn. auto.
Qed.

Lemma shaped_step (p : Poll.Poller E S Flight) (ev : Poll.PollEvent) :
  shaped p -> shaped (step p ev).
Proof.
  unfold poller_shaped, Poll.step. intros Hp.
  destruct ev; destruct (Poll.phase p) eqn:Hph; try (rewrite Hph; exact Hp).
  - destruct (call_requests call_models first_request p models_call) as [P1 R1].
    destruct (call_requests call_diagnostics tick_request (Poll.call call_models p)
                diagnostics_call) as [P2 R2].
    cbn. exists 0. rewrite R2, R1, Hp. reflexivity.
  - destruct (call_requests call_diagnostics tick_request p diagnostics_call) as [P2 R2].
    rewrite P2, Hph. destruct Hp as [n Hn]. exists (Datatypes.S n).
    rewrite R2, Hn. cbn [app repeat]. f_equal. f_equal.
    change (tick_request :: repeat tick_request n)
      with (repeat tick_request (Datatypes.S n)).
    now rewrite <- repeat_cons.
  - unfold Poll.arrive. destruct (nth_error _ _); cbn; rewrite ?Hph; [|exact Hp].
    now rewrite resume_quiet.
  - unfold Poll.arrive. destruct (nth_error _ _); cbn; rewrite ?Hph; [|exact Hp].
    destruct Hp as [n Hn]. exists n. now rewrite resume_quiet.
  - unfold Poll.arrive. destruct (nth_error _ _); cbn; rewrite ?Hph; [|exact Hp].
    destruct Hp as [n Hn]. exists n. now rewrite resume_quiet.
  - cbn. exact Hp.
Qed.

Lemma shaped_exec (evs : list Poll.PollEvent) (p : Poll.Poller E S Flight) :
  shaped p -> shaped (exec evs p).
Proof.
  revert p. induction evs as [|ev evs IH]; intros p Hp; [exact Hp|].
  apply (IH (step p ev)), shaped_step, Hp.
Qed.

End PollerShape.

(** X7.  Whatever happens to the polling effect, and in whatever order,
    it has sent nothing as long as it has not started, and from then on
    one refresh request followed by diagnostics requests only, at least
    one. *)
Theorem poller_sends_refresh_then_polls (E : Js.Engine) (env : Async.Env E)
    (s3 : AppV3.State E) (sd : AppDemo.State E) (evs : list Poll.PollEvent) :
  poller_shaped models_request diagnostics_request
    (AppV3.poll E env evs (Poll.idle s3))
  /\ poller_shaped demo_models_request demo_diagnostics_request
       (AppDemo.poll E env evs (Poll.idle sd)).
Proof.
  split.
  - apply (shaped_exec (AppV3.call_fetchModels E env) (AppV3.call_fetchDiagnostics E env)
             (AppV3.resume E) models_request diagnostics_request (@v3_resume_quiet E)).
    + intros w. do 2 eexists. split; [reflexivity|]. run_v3.
      unfold Async.requests. now rewrite flat_map_app.
    + intros w. do 2 eexists. split; [reflexivity|]. run_v3.
      unfold Async.requests. now rewrite flat_map_app.
    + reflexivity.
  - apply (shaped_exec (AppDemo.call_fetchModels E env)
             (AppDemo.call_fetchDiagnostics E env)
             (AppDemo.resume E) demo_models_request demo_diagnostics_request
             (@demo_resume_quiet E)).
    + intros w. do 2 eexists. split; [reflexivity|]. run_demo.
      unfold Async.requests. now rewrite flat_map_app.
    + intros w. do 2 eexists. split; [reflexivity|]. run_demo.
      unfold Async.requests. now rewrite flat_map_app.
    + reflexivity.
Qed.
